(** * Device orchestration scripts: a shallow embedding and its properties

    The development follows the three scripts of the repository:

    - [Polling]  : pythonautopollingfordeviceconnection.py (USSD dialling
                   with live dial-pad resolution, fallback grid and cache);
    - [V2]       : pythonautomationV2.py (the earlier dialler);
    - [M10]      : M10AGINGSTART_V2.0.7.py (application launch with
                   verification, cooldown and outcome log).

    Python values are modelled as follows.  [str] is [string]: a character
    is a code point below 256.  [int] is [Z].  A [dict] is an association
    list in insertion order.  Effects are threaded through a state and
    exception monad over a record of the outside world. *)

From stdpp Require Import base gmap strings.
From Stdlib Require Import ZArith NArith List String Ascii Bool Lia.
From Stdlib Require Import Decimal DecimalString DecimalZ.
Import ListNotations.

Local Open Scope string_scope.
Local Open Scope Z_scope.

(** ** Python's string primitives *)

Module Py.

Definition code (c : ascii) : N := N_of_ascii c.

(** [\d] of the [re] module and the digits [int()] reads: below code
    point 256 these are the ten ASCII digits. *)
Definition is_digit (c : ascii) : bool :=
  ((48 <=? code c) && (code c <=? 57))%N.

(** White space that [int()] skips around a number: the C locale's
    [isspace] and, above 127, NEL and the no-break space. *)
Definition int_space (c : ascii) : bool :=
  let n := code c in
  (((9 <=? n) && (n <=? 13)) || (n =? 32) || (n =? 133) || (n =? 160))%N.

(** [str.isspace], which [str.strip()] uses: as above plus the four
    information separators. *)
Definition is_space (c : ascii) : bool :=
  let n := code c in
  (int_space c || ((28 <=? n) && (n <=? 31)))%N.

(** [str.lower()] on one character. *)
Definition lower_char (c : ascii) : ascii :=
  let n := code c in
  if (((65 <=? n) && (n <=? 90))
      || ((192 <=? n) && (n <=? 222) && negb (n =? 215)))%N
  then ascii_of_N (n + 32) else c.

Fixpoint lower (s : string) : string :=
  match s with
  | EmptyString => EmptyString
  | String c s' => String (lower_char c) (lower s')
  end.

Section Strip.
Variable sp : ascii -> bool.

Fixpoint lstrip_by (s : string) : string :=
  match s with
  | EmptyString => EmptyString
  | String c s' => if sp c then lstrip_by s' else s
  end.

Fixpoint rstrip_by (s : string) : string :=
  match s with
  | EmptyString => EmptyString
  | String c s' =>
      match rstrip_by s' with
      | EmptyString => if sp c then EmptyString else String c EmptyString
      | r => String c r
      end
  end.

Definition strip_by (s : string) : string := rstrip_by (lstrip_by s).
End Strip.

(** [s.strip()] *)
Definition strip : string -> string := strip_by is_space.

Definition nonempty (s : string) : bool :=
  match s with EmptyString => false | _ => true end.

(** [sub in s] *)
Fixpoint contains (sub s : string) : bool :=
  String.prefix sub s
  || match s with
     | EmptyString => false
     | String _ s' => contains sub s'
     end.

(** [c in s] for a single character [c] *)
Definition has_char (c : ascii) (s : string) : bool :=
  contains (String c EmptyString) s.

(** [s.split(sep)] for a one-character separator *)
Fixpoint split_on (sep : ascii) (s : string) : list string :=
  match s with
  | EmptyString => [EmptyString]
  | String c s' =>
      if Ascii.eqb c sep then EmptyString :: split_on sep s'
      else match split_on sep s' with
           | w :: ws => String c w :: ws
           | [] => [String c EmptyString]
           end
  end.

(** Iterating over a text file: every line keeps its newline; text that
    follows the last newline is a line of its own. *)
Fixpoint readlines (s : string) : list string :=
  match s with
  | EmptyString => []
  | String c s' =>
      if Ascii.eqb c "010"%char then String c EmptyString :: readlines s'
      else match readlines s' with
           | l :: ls => String c l :: ls
           | [] => [String c EmptyString]
           end
  end.

(** [s.splitlines()]: the line boundaries below code point 256 are LF,
    CR, CR LF, VT, FF, FS, GS, RS and NEL; the boundaries are dropped. *)
Definition is_linebreak (c : ascii) : bool :=
  let n := code c in
  (((10 <=? n) && (n <=? 13)) || ((28 <=? n) && (n <=? 30)) || (n =? 133))%N.

Fixpoint splitlines (s : string) : list string :=
  match s with
  | EmptyString => []
  | String c s' =>
      if is_linebreak c then
        match s' with
        | String c2 s'' =>
            if Ascii.eqb c "013"%char && Ascii.eqb c2 "010"%char
            then EmptyString :: splitlines s''
            else EmptyString :: splitlines s'
        | EmptyString => [EmptyString]
        end
      else match splitlines s' with
           | l :: ls => String c l :: ls
           | [] => [String c EmptyString]
           end
  end.

(** *** [int(s)] and [str(n)] *)

(** What may follow a digit inside a number: digits, with single
    underscores between them. *)
Fixpoint digits_tail (s : string) : bool :=
  match s with
  | EmptyString => true
  | String c s' =>
      if is_digit c then digits_tail s'
      else if Ascii.eqb c "_"%char then
        match s' with
        | String d s'' => is_digit d && digits_tail s''
        | EmptyString => false
        end
      else false
  end.

Definition valid_digits (s : string) : bool :=
  match s with
  | String c s' => is_digit c && digits_tail s'
  | EmptyString => false
  end.

Fixpoint drop_underscores (s : string) : string :=
  match s with
  | EmptyString => EmptyString
  | String c s' =>
      if Ascii.eqb c "_"%char then drop_underscores s'
      else String c (drop_underscores s')
  end.

(** [int(s)]: [None] stands for [ValueError]. *)
Definition int (s : string) : option Z :=
  let t := strip_by int_space s in
  let '(neg, body) :=
    match t with
    | String c r =>
        if Ascii.eqb c "-"%char then (true, r)
        else if Ascii.eqb c "+"%char then (false, r)
        else (false, t)
    | EmptyString => (false, t)
    end in
  if valid_digits body then
    match NilEmpty.uint_of_string (drop_underscores body) with
    | Some u => Some (if neg then - Z.of_uint u else Z.of_uint u)
    | None => None
    end
  else None.

(** [str(n)], which an f-string applies to an integer field. *)
Definition str (n : Z) : string := NilZero.string_of_int (Z.to_int n).

(** *** The three regular expressions of the scripts *)

(** The longest prefix of digits, and what follows it. *)
Fixpoint span_digits (s : string) : string * string :=
  match s with
  | EmptyString => (EmptyString, EmptyString)
  | String c s' =>
      if is_digit c then
        let '(d, r) := span_digits s' in (String c d, r)
      else (EmptyString, s)
  end.

(** One match of [\[(\d+),(\d+)\]] at the start of [s]: the two groups and
    the text after the match. *)
Definition match_pair (s : string) : option ((string * string) * string) :=
  match s with
  | String c s1 =>
      if Ascii.eqb c "["%char then
        let '(x, s2) := span_digits s1 in
        if nonempty x then
          match s2 with
          | String c2 s3 =>
              if Ascii.eqb c2 ","%char then
                let '(y, s4) := span_digits s3 in
                if nonempty y then
                  match s4 with
                  | String c4 s5 =>
                      if Ascii.eqb c4 "]"%char then Some ((x, y), s5)
                      else None
                  | EmptyString => None
                  end
                else None
              else None
          | EmptyString => None
          end
        else None
      else None
  | EmptyString => None
  end.

Fixpoint findall_pairs_from (fuel : nat) (s : string) : list (string * string) :=
  match fuel with
  | O => []
  | S fuel' =>
      match match_pair s with
      | Some (p, rest) => p :: findall_pairs_from fuel' rest
      | None =>
          match s with
          | EmptyString => []
          | String _ s' => findall_pairs_from fuel' s'
          end
      end
  end.

(** [re.findall(r"\[(\d+),(\d+)\]", s)]: the matches from left to right,
    none overlapping.  Every step consumes a character, so the length of
    [s] (and one more for the empty string) is fuel enough. *)
Definition findall_pairs (s : string) : list (string * string) :=
  findall_pairs_from (S (String.length s)) s.

(** One match of [(\d+)x(\d+)] at the start of [s]. *)
Definition match_size (s : string) : option (string * string) :=
  let '(a, r) := span_digits s in
  if nonempty a then
    match r with
    | String c r2 =>
        if Ascii.eqb c "x"%char then
          let '(b, _) := span_digits r2 in
          if nonempty b then Some (a, b) else None
        else None
    | EmptyString => None
    end
  else None.

(** [re.search(r"(\d+)x(\d+)", s)]: the leftmost match. *)
Fixpoint search_size (s : string) : option (string * string) :=
  match match_size s with
  | Some p => Some p
  | None =>
      match s with
      | EmptyString => None
      | String _ s' => search_size s'
      end
  end.

Definition key_names : list string :=
  ["zero"; "one"; "two"; "three"; "four"; "five"; "six"; "seven";
   "eight"; "nine"; "star"; "pound"; "hash"; "call"].

(** [re.search(r"(zero|one|...|call)", s)]: at the leftmost position
    where an alternative matches, the first alternative that does. *)
Fixpoint search_name (s : string) : option string :=
  match List.find (fun n => String.prefix n s) key_names with
  | Some n => Some n
  | None =>
      match s with
      | EmptyString => None
      | String _ s' => search_name s'
      end
  end.

End Py.

(** ** Exceptions, results and the state-and-exception monad *)

Inductive exn : Type :=
  | TransportError   (* the transport could not run the command *)
  | IOError          (* a file could not be read *)
  | ParseError       (* xml.etree.ElementTree.ParseError *)
  | ValueError
  | IndexError
  | OverflowError.

Inductive result (A : Type) : Type :=
  | Ok (a : A)
  | Raise (e : exn).
Arguments Ok {A} a.
Arguments Raise {A} e.

Definition is_ok {A} (r : result A) : bool :=
  match r with Ok _ => true | Raise _ => false end.

(** A pure computation that may raise. *)
Definition rbind {A B} (r : result A) (k : A -> result B) : result B :=
  match r with
  | Ok a => k a
  | Raise e => Raise e
  end.

Definition of_option {A} (e : exn) (o : option A) : result A :=
  match o with Some a => Ok a | None => Raise e end.

(** A computation over a world [W]: the world keeps every effect made
    before an exception was raised. *)
Definition M (W A : Type) : Type := W -> result A * W.

Definition ret {W A} (a : A) : M W A := fun w => (Ok a, w).

Definition bind {W A B} (c : M W A) (k : A -> M W B) : M W B :=
  fun w =>
    match c w with
    | (Ok a, w') => k a w'
    | (Raise e, w') => (Raise e, w')
    end.

Definition throw {W A} (e : exn) : M W A := fun w => (Raise e, w).

(** [try: c  except Exception as e: h e] *)
Definition try_catch {W A} (c : M W A) (h : exn -> M W A) : M W A :=
  fun w =>
    match c w with
    | (Ok a, w') => (Ok a, w')
    | (Raise e, w') => h e w'
    end.

Definition lift {W A} (r : result A) : M W A := fun w => (r, w).

Definition gets {W A} (f : W -> A) : M W A := fun w => (Ok (f w), w).

Definition modify {W} (f : W -> W) : M W unit := fun w => (Ok tt, f w).

Declare Scope monad_scope.
Delimit Scope monad_scope with monad.
Notation "x <- c ;; k" := (bind c (fun x => k))
  (at level 100, c at next level, right associativity) : monad_scope.
Notation "c ;;; k" := (bind c (fun _ => k))
  (at level 100, right associativity) : monad_scope.
Notation "x <-r c ;; k" := (rbind c (fun x => k))
  (at level 100, c at next level, right associativity) : monad_scope.
Local Open Scope monad_scope.

(** [for x in xs: body x], stopping at the first exception. *)
Fixpoint for_each {W A} (xs : list A) (body : A -> M W unit) : M W unit :=
  match xs with
  | [] => ret tt
  | x :: xs' => body x ;;; for_each xs' body
  end.

(** The pure analogue: a loop that threads an accumulator. *)
Fixpoint fold_result {A S} (step : S -> A -> result S) (xs : list A) (s : S)
  : result S :=
  match xs with
  | [] => Ok s
  | x :: xs' => s' <-r step s x ;; fold_result step xs' s'
  end.

(** ** Dictionaries

    A Python [dict] keeps its keys in insertion order; assigning to a key
    that is present replaces the value where it stands. *)

Module Dict.

Definition t (V : Type) : Type := list (string * V).

Fixpoint get {V} (k : string) (d : t V) : option V :=
  match d with
  | [] => None
  | (k', v) :: d' => if String.eqb k' k then Some v else get k d'
  end.

Fixpoint set {V} (k : string) (v : V) (d : t V) : t V :=
  match d with
  | [] => [(k, v)]
  | (k', v') :: d' =>
      if String.eqb k' k then (k', v) :: d' else (k', v') :: set k v d'
  end.

(** [k in d] *)
Definition mem {V} (k : string) (d : t V) : bool :=
  match get k d with Some _ => true | None => false end.

Definition keys {V} (d : t V) : list string := List.map fst d.

Definition values {V} (d : t V) : list V := List.map snd d.

(** A dictionary never holds a key twice. *)
Definition wf {V} (d : t V) : Prop := NoDup (keys d).

End Dict.

(** A tap point, and the coordinate map of the scripts. *)
Abbreviation point := (Z * Z)%type.
Abbreviation coords := (Dict.t (Z * Z)).

(** ** Floating point

    The scripts compute [int(h * 0.45)] and the like: the integer [h] is
    converted to a binary64 float, multiplied by the binary64 constant
    nearest to the literal, and truncated.  A non-negative finite float
    is a pair of a mantissa and an exponent; rounding is to nearest, ties
    to even, on 53 bits.  The products formed here are of a non-negative
    integer and a constant between [0.12] and [0.93], which neither
    underflow nor overflow, so the exponent range matters only when the
    integer is converted. *)

Module Float.

Record t : Type := mk { mant : Z; expo : Z }.

(** The exact value [n], [0 <= n], rounded to 53 significant bits:
    the result stands for [fst * 2 ^ snd]. *)
Definition round53 (n : Z) : Z * Z :=
  if n <? 2 ^ 53 then (n, 0)
  else
    let s := Z.log2 n - 52 in
    let q := n / 2 ^ s in
    let r := n mod 2 ^ s in
    let half := 2 ^ (s - 1) in
    let up := (half <? r) || ((r =? half) && Z.odd q) in
    ((if up then q + 1 else q), s).

(** [float(h)] for [0 <= h]: [OverflowError] ("int too large to convert
    to float") when the rounded value reaches [2 ^ 1024]. *)
Definition of_int (h : Z) : result t :=
  let '(m, s) := round53 h in
  if 2 ^ 1024 <=? m * 2 ^ s then Raise OverflowError
  else Ok {| mant := m; expo := s |}.

Definition mul (x y : t) : t :=
  let '(m, s) := round53 (mant x * mant y) in
  {| mant := m; expo := s + expo x + expo y |}.

(** [int(x)]: truncation. *)
Definition trunc (x : t) : Z :=
  if 0 <=? expo x then mant x * 2 ^ expo x
  else mant x / 2 ^ (- expo x).

(** [int(h * c)] *)
Definition int_mul (h : Z) (c : t) : result Z :=
  f <-r of_int h ;; Ok (trunc (mul f c)).

(** The binary64 values of the literals. *)
Definition c0_12 : t := {| mant := 8646911284551352; expo := -56 |}.
Definition c0_2  : t := {| mant := 7205759403792794; expo := -55 |}.
Definition c0_25 : t := {| mant := 4503599627370496; expo := -54 |}.
Definition c0_45 : t := {| mant := 8106479329266893; expo := -54 |}.
Definition c0_78 : t := {| mant := 7025615418697974; expo := -53 |}.
Definition c0_8  : t := {| mant := 7205759403792794; expo := -53 |}.
Definition c0_85 : t := {| mant := 7656119366529843; expo := -53 |}.
Definition c0_88 : t := {| mant := 7926335344172073; expo := -53 |}.
Definition c0_93 : t := {| mant := 8376695306909123; expo := -53 |}.

End Float.

(** ** Element trees

    [xml.etree.ElementTree]: an element has a tag, attributes and
    children. *)

Module ET.

Inductive element : Type :=
  | Element (tag : string) (attrib : list (string * string))
            (children : list element).

Definition tag (e : element) : string :=
  match e with Element t _ _ => t end.

Definition attrib (e : element) : list (string * string) :=
  match e with Element _ a _ => a end.

(** [node.attrib.get(name)] *)
Definition get_opt (e : element) (name : string) : option string :=
  Dict.get name (attrib e).

(** [node.attrib.get(name, default)] *)
Definition get (e : element) (name default : string) : string :=
  match get_opt e name with Some v => v | None => default end.

(** The element and all elements below it, in document order. *)
Fixpoint descendants (e : element) : list element :=
  match e with
  | Element _ _ cs => e :: List.flat_map descendants cs
  end.

(** [tree.iter(t)] *)
Definition iter (t : string) (e : element) : list element :=
  List.filter (fun x => String.eqb (tag x) t) (descendants e).

(** The text of a UI dump, by what [ET.fromstring] makes of it: a text
    that does not parse, or the document it denotes (which is never the
    empty text). *)
Inductive text : Type :=
  | Unparseable (raw : string)
  | Document (root : element).

Definition fromstring (x : text) : result element :=
  match x with
  | Unparseable _ => Raise ParseError
  | Document root => Ok root
  end.

(** [if xml:] on the text. *)
Definition truthy (x : text) : bool :=
  match x with
  | Unparseable raw => Py.nonempty raw
  | Document _ => true
  end.

End ET.

(** ** The transport and the world of the dialling scripts *)

(** The adb command lines the scripts issue. *)
Inductive command : Type :=
  | Devices                          (* devices *)
  | WaitForDevice                    (* wait-for-device *)
  | DumpsysPower                     (* shell dumpsys power *)
  | PowerDisplay                     (* shell dumpsys power | findstr 'Display Power' *)
  | KeyEvent (key : Z)               (* shell input keyevent key *)
  | WmSize                           (* shell wm size *)
  | Swipe (sx sy ex ey ms : Z)       (* shell input swipe sx sy ex ey ms *)
  | UiDump                           (* shell uiautomator dump /sdcard/dialer.xml *)
  | Pull (local : string)            (* pull /sdcard/dialer.xml local *)
  | Tap (x y : Z)                    (* shell input tap x y *)
  | StartDial.                       (* shell am start -a android.intent.action.DIAL *)

(** What the scripts print. *)
Inductive message : Type :=
  | MsgWaking (device : string)
  | MsgScreenOn (device : string)
  | MsgWakeError (device : string) (e : exn)
  | MsgSwipeUp (device : string)
  | MsgSwipeError (device : string) (e : exn)
  | MsgDumpError (device : string) (e : exn)
  | MsgParseIncomplete (device : string) (found : nat)
  | MsgUsingKeys (device : string) (keys : list string)
  | MsgDetected (device : string)
  | MsgMissingChar (device : string) (ch : ascii)
  | MsgFinished (device : string) (code : string)
  | MsgCalled (device : string)
  | MsgDone (device : string)
  | MsgProcessError (device : string) (e : exn)
  | MsgCacheReadError (e : exn).

Inductive event : Type :=
  | Adb (device : option string) (cmd : command) (capture : bool)
  | ReadFile (path : string)
  | Print (m : message).

(** The outside world.  Every interaction with it (an adb call, reading
    the pulled dump) is numbered; [adb_reply n] and [file_reply n] say how
    the [n]-th interaction ends if it is of that kind.  [trace] records
    what the script did, oldest first.  [global_coords] is the module
    variable of the polling script and [cache_file] the content of
    dialpad_coords_cache.txt, [None] while the file does not exist. *)
Record world : Type := mkWorld {
  adb_reply : nat -> result string;
  file_reply : nat -> result ET.text;
  clock : nat;
  trace : list event;
  global_coords : option coords;
  cache_file : option string
}.

Definition log (e : event) (w : world) : world :=
  mkWorld (adb_reply w) (file_reply w) (clock w) (trace w ++ [e])
          (global_coords w) (cache_file w).

Definition advance (w : world) : world :=
  mkWorld (adb_reply w) (file_reply w) (S (clock w)) (trace w)
          (global_coords w) (cache_file w).

Definition set_global_coords (c : option coords) (w : world) : world :=
  mkWorld (adb_reply w) (file_reply w) (clock w) (trace w) c (cache_file w).

Definition set_cache_file (f : option string) (w : world) : world :=
  mkWorld (adb_reply w) (file_reply w) (clock w) (trace w)
          (global_coords w) f.

(** One adb call: [subprocess.check_output] when [capture], else
    [subprocess.call], whose output is not looked at.  Either way the
    call may raise. *)
Definition adb_call (device : option string) (cmd : command) (capture : bool)
  : M world string :=
  fun w =>
    let w' := advance (log (Adb device cmd capture) w) in
    match adb_reply w (clock w) with
    | Ok out => (Ok (if capture then out else EmptyString), w')
    | Raise e => (Raise e, w')
    end.

(** [open(path).read()] of the pulled dump. *)
Definition read_file (path : string) : M world ET.text :=
  fun w => (file_reply w (clock w), advance (log (ReadFile path) w)).

Definition print (m : message) : M world unit := modify (log (Print m)).

(** The taps of a trace, in order. *)
Definition taps (tr : list event) : list (string * point) :=
  List.flat_map
    (fun e =>
       match e with
       | Adb (Some d) (Tap x y) _ => [(d, (x, y))]
       | _ => []
       end) tr.

Definition messages (tr : list event) : list message :=
  List.flat_map (fun e => match e with Print m => [m] | _ => [] end) tr.


(** The characters of a string, as [for ch in s] visits them. *)
Definition chars (s : string) : list ascii := list_ascii_of_string s.

Definition char_key (ch : ascii) : string := String ch EmptyString.

Definition alphabet : string := "0123456789*#".

(** [\[(\d+),(\d+)\]] found exactly twice in [bounds]: the centre of the
    box, [(x1+x2)//2, (y1+y2)//2].  [None] when the count is not two. *)
Definition center_of_bounds (bounds : string) : result (option point) :=
  match Py.findall_pairs bounds with
  | [(x1, y1); (x2, y2)] =>
      a <-r of_option ValueError (Py.int x1) ;;
      b <-r of_option ValueError (Py.int x2) ;;
      c <-r of_option ValueError (Py.int y1) ;;
      d <-r of_option ValueError (Py.int y2) ;;
      Ok (Some ((a + b) / 2, (c + d) / 2))
  | _ => Ok None
  end.

(** ** pythonautopollingfordeviceconnection.py *)

Module Polling.

Definition USSD_CODE : string := "*#*#1234#*#*".

Definition is_screen_on (device : string) : M world bool :=
  try_catch
    (out <- adb_call (Some device) DumpsysPower true ;;
     ret (Py.contains "state=ON" out
          || Py.contains "mHoldingDisplaySuspendBlocker=true" out
          || Py.contains "mWakefulness=Awake" out))
    (fun _ => ret false).

Definition wake_and_swipe (device : string) : M world unit :=
  try_catch
    (on <- is_screen_on device ;;
     if negb on then
       print (MsgWaking device) ;;;
       adb_call (Some device) (KeyEvent 26) false ;;; ret tt
     else print (MsgScreenOn device))
    (fun e => print (MsgWakeError device e)) ;;;
  try_catch
    (size <- adb_call (Some device) WmSize true ;;
     match Py.search_size size with
     | Some (a, b) =>
         w <- lift (of_option ValueError (Py.int a)) ;;
         h <- lift (of_option ValueError (Py.int b)) ;;
         sy <- lift (Float.int_mul h Float.c0_8) ;;
         ey <- lift (Float.int_mul h Float.c0_25) ;;
         adb_call (Some device) (Swipe (w / 2) sy (w / 2) ey 300) false ;;;
         ret tt
     | None =>
         adb_call (Some device) (Swipe 360 1200 360 400 300) false ;;; ret tt
     end)
    (fun e => print (MsgSwipeError device e)).

(** [dump_ui(device)], with the default [out_path]. *)
Definition dump_ui (device : string) : M world (option ET.text) :=
  try_catch
    (adb_call (Some device) UiDump false ;;;
     let local := "dialer_" ++ device ++ ".xml" in
     adb_call (Some device) (Pull local) false ;;;
     data <- read_file local ;;
     ret (Some data))
    (fun e => print (MsgDumpError device e) ;;; ret None).

Definition name_mapping : Dict.t string :=
  [("zero", "0"); ("one", "1"); ("two", "2"); ("three", "3"); ("four", "4");
   ("five", "5"); ("six", "6"); ("seven", "7"); ("eight", "8");
   ("nine", "9"); ("star", "*"); ("pound", "#"); ("hash", "#");
   ("call", "CALL")].

(** The key a node stands for, if any: lines 109 to 124. *)
Definition classify (text desc resid : string) : option string :=
  if Py.nonempty text && Py.contains text alphabet then Some text
  else
    match List.find (fun ch => Py.has_char ch resid || Py.has_char ch desc)
                    (chars alphabet) with
    | Some ch => Some (char_key ch)
    | None =>
        match Py.search_name (Py.lower (resid ++ " " ++ desc)) with
        | Some name => Dict.get name name_mapping
        | None => None
        end
    end.

Definition node_key (node : ET.element) : option string :=
  classify (Py.strip (ET.get node "text" ""))
           (Py.strip (ET.get node "content-desc" ""))
           (Py.strip (ET.get node "resource-id" "")).

(** The body of the loop over the nodes. *)
Definition parse_node (acc : coords) (node : ET.element) : result coords :=
  let bounds := ET.get node "bounds" "" in
  match node_key node with
  | Some key =>
      if Py.nonempty key && Py.nonempty bounds then
        c <-r center_of_bounds bounds ;;
        match c with
        | Some p => Ok (Dict.set key p acc)
        | None => Ok acc
        end
      else Ok acc
  | None => Ok acc
  end.

Definition parse_coords_from_ui (xml_string : ET.text) : result coords :=
  match ET.fromstring xml_string with
  | Raise _ => Ok []
  | Ok tree => fold_result parse_node (ET.iter "node" tree) []
  end.

Definition grid_keys : list string :=
  ["1"; "2"; "3"; "4"; "5"; "6"; "7"; "8"; "9"; "*"; "0"; "#"].

(** The size the device reports, or 720x1612. *)
Definition screen_size (size : string) : result (Z * Z) :=
  match Py.search_size size with
  | None => Ok (720, 1612)
  | Some (a, b) =>
      w <-r of_option ValueError (Py.int a) ;;
      h <-r of_option ValueError (Py.int b) ;;
      Ok (w, h)
  end.

(** The nested loops of [fallback_grid]: [i] counts the cells. *)
Fixpoint fill_row (r : Z) (cols : list Z) (i : nat) (acc : coords)
  : result (nat * coords) :=
  match cols with
  | [] => Ok (i, acc)
  | c :: cols' =>
      k <-r of_option IndexError (nth_error grid_keys i) ;;
      fill_row r cols' (S i) (Dict.set k (c, r) acc)
  end.

Fixpoint fill_grid (rows cols : list Z) (i : nat) (acc : coords)
  : result coords :=
  match rows with
  | [] => Ok acc
  | r :: rows' =>
      ia <-r fill_row r cols i acc ;;
      fill_grid rows' cols (fst ia) (snd ia)
  end.

(** [fallback_grid] once the size is known. *)
Definition grid_of_size (w h : Z) : result coords :=
  top <-r Float.int_mul h Float.c0_45 ;;
  bottom <-r Float.int_mul h Float.c0_85 ;;
  left <-r Float.int_mul w Float.c0_12 ;;
  right <-r Float.int_mul w Float.c0_88 ;;
  let cols := [left; w / 2; right] in
  let rows := List.map (fun i => top + (bottom - top) * i / 4) [0; 1; 2; 3] in
  grid <-r fill_grid rows cols 0%nat [] ;;
  cy <-r Float.int_mul h Float.c0_93 ;;
  Ok (Dict.set "CALL" (w / 2, cy) grid).

Definition fallback_grid (device : string) : M world coords :=
  size <- adb_call (Some device) WmSize true ;;
  wh <- lift (screen_size size) ;;
  lift (grid_of_size (fst wh) (snd wh)).

(** The text [save_coords] writes: one line [k:x,y] per entry. *)
Definition cache_line (kv : string * point) : string :=
  fst kv ++ ":" ++ Py.str (fst (snd kv)) ++ "," ++ Py.str (snd (snd kv))
  ++ String "010"%char EmptyString.

Definition cache_text (c : coords) : string :=
  List.fold_right String.append EmptyString (List.map cache_line c).

Definition save_coords (c : coords) : M world unit :=
  modify (set_cache_file (Some (cache_text c))).

(** One line of the cache, in [load_coords]. *)
Definition load_line (acc : coords) (line : string) : result coords :=
  if Py.has_char ":"%char line then
    match Py.split_on ":"%char (Py.strip line) with
    | [k; val] =>
        match Py.split_on ","%char val with
        | [a; b] =>
            x <-r of_option ValueError (Py.int a) ;;
            y <-r of_option ValueError (Py.int b) ;;
            Ok (Dict.set k (x, y) acc)
        | _ => Raise ValueError
        end
    | _ => Raise ValueError
    end
  else Ok acc.

Definition load_coords : M world (option coords) :=
  f <- gets cache_file ;;
  match f with
  | None => ret None
  | Some content =>
      try_catch
        (c <- lift (fold_result load_line (Py.readlines content) []) ;;
         ret (Some c))
        (fun e => print (MsgCacheReadError e) ;;; ret None)
  end.

Definition tap (device : string) (x y : Z) : M world unit :=
  adb_call (Some device) (Tap x y) false ;;; ret tt.

(** [any(k in s for k in ks)] *)
Definition any_in (ks : list string) (s : string) : bool :=
  List.existsb (fun k => Py.contains k s) ks.

(** The loop of [ensure_keypad_open]: [true] when a keypad button was
    tapped (the function then returns). *)
Fixpoint tap_keypad_button (device : string) (nodes : list ET.element)
  : M world bool :=
  match nodes with
  | [] => ret false
  | node :: rest =>
      let resid := Py.lower (ET.get node "resource-id" "") in
      let desc := Py.lower (ET.get node "content-desc" "") in
      if any_in ["dialpad"; "keypad"; "show_dialpad"; "show_dialer"; "toggle"]
                resid
         || any_in ["dialpad"; "keypad"; "show dialpad"] desc
      then
        c <- lift (center_of_bounds (ET.get node "bounds" "")) ;;
        match c with
        | Some (cx, cy) => tap device cx cy ;;; ret true
        | None => tap_keypad_button device rest
        end
      else tap_keypad_button device rest
  end.

Definition ensure_keypad_open (device : string) : M world unit :=
  xml <- dump_ui device ;;
  done <-
    match xml with
    | Some x =>
        if ET.truthy x then
          tree <- lift (ET.fromstring x) ;;
          tap_keypad_button device (ET.iter "node" tree)
        else ret false
    | None => ret false
    end ;;
  if (done : bool) then ret tt
  else
    size <- adb_call (Some device) WmSize true ;;
    match Py.search_size size with
    | Some (a, b) =>
        w <- lift (of_option ValueError (Py.int a)) ;;
        h <- lift (of_option ValueError (Py.int b)) ;;
        y <- lift (Float.int_mul h Float.c0_78) ;;
        tap device (w / 2) y
    | None => tap device 360 1200
    end.

(** How many keys of the map occur in ["0123456789*#"]. *)
Definition dial_key_count (c : coords) : nat :=
  List.length (List.filter (fun k => Py.contains k alphabet) (Dict.keys c)).

(** The loop of lines 243 to 253: the centre of the first node that
    mentions a call button and has two corner pairs. *)
Fixpoint find_call (nodes : list ET.element) : result (option point) :=
  match nodes with
  | [] => Ok None
  | node :: rest =>
      let resid := Py.lower (ET.get node "resource-id" "") in
      let desc := Py.lower (ET.get node "content-desc" "") in
      let text := Py.lower (ET.get node "text" "") in
      if any_in ["call"; "dial"; "dialer"; "phone"; "endcall"]
                (resid ++ desc ++ text)
      then
        c <-r center_of_bounds (ET.get node "bounds" "") ;;
        match c with
        | Some p => Ok (Some p)
        | None => find_call rest
        end
      else find_call rest
  end.

(** Lines 240 to 255, the search for a CALL button when the parsed map
    has none; any exception leaves the map as it is. *)
Definition second_pass (xml : option ET.text) (c : coords) : coords :=
  if negb (Dict.mem "CALL" c) then
    match xml with
    | Some x =>
        match (tree <-r ET.fromstring x ;; find_call (ET.iter "node" tree)) with
        | Ok (Some p) => Dict.set "CALL" p c
        | _ => c
        end
    | None => c
    end
  else c.

Definition dict_truthy {V} (d : Dict.t V) : bool :=
  match d with [] => false | _ => true end.

Definition prepare_coords_for_device (device : string) : M world coords :=
  g <- gets global_coords ;;
  if match g with Some c => dict_truthy c | None => false end
  then ret (match g with Some c => c | None => [] end)
  else
    xml <- dump_ui device ;;
    parsed <-
      match xml with
      | Some x =>
          if ET.truthy x then lift (parse_coords_from_ui x) else ret []
      | None => ret []
      end ;;
    c <-
      (if (dial_key_count parsed <? 10)%nat || negb (Dict.mem "CALL" parsed)
       then
         print (MsgParseIncomplete device (List.length parsed)) ;;;
         fallback_grid device
       else ret (second_pass xml parsed)) ;;
    modify (set_global_coords (Some c)) ;;;
    save_coords c ;;;
    print (MsgUsingKeys device (Dict.keys c)) ;;;
    ret c.

(** Lines 272 to 277: the code, key by key. *)
Definition type_code (device : string) (code : string) (c : coords)
  : M world unit :=
  for_each (chars code)
    (fun ch =>
       match Dict.get (char_key ch) c with
       | Some (x, y) => tap device x y
       | None => print (MsgMissingChar device ch)
       end).

(** Lines 279 to 289: the CALL key, or the bottom centre. *)
Definition press_call (device : string) (c : coords) : M world unit :=
  match Dict.get "CALL" c with
  | Some (cx, cy) => tap device cx cy
  | None =>
      size <- adb_call (Some device) WmSize true ;;
      match Py.search_size size with
      | Some (a, b) =>
          w <- lift (of_option ValueError (Py.int a)) ;;
          h <- lift (of_option ValueError (Py.int b)) ;;
          y <- lift (Float.int_mul h Float.c0_93) ;;
          tap device (w / 2) y
      | None => tap device 360 1500
      end
  end.

(** [process_device] for a given code; the script's is [USSD_CODE]. *)
Definition process_device_with (code : string) (device : string)
  : M world unit :=
  try_catch
    (print (MsgDetected device) ;;;
     adb_call (Some device) WaitForDevice false ;;;
     wake_and_swipe device ;;;
     ensure_keypad_open device ;;;
     adb_call (Some device) StartDial false ;;;
     c <- prepare_coords_for_device device ;;
     type_code device code c ;;;
     press_call device c ;;;
     print (MsgDone device))
    (fun e => print (MsgProcessError device e)).

Definition process_device : string -> M world unit :=
  process_device_with USSD_CODE.

End Polling.

(** ** pythonautomationV2.py *)

Module V2.

Definition USSD_CODE : string := "*123#".

Definition is_screen_on (device : string) : M world bool :=
  out <- adb_call (Some device) PowerDisplay true ;;
  ret (Py.contains "state=ON" out).

Definition wake_screen (device : string) : M world unit :=
  on <- is_screen_on device ;;
  if negb on then
    print (MsgWaking device) ;;;
    adb_call (Some device) (KeyEvent 26) false ;;; ret tt
  else ret tt.

Definition swipe_up_to_unlock (device : string) : M world unit :=
  size <- adb_call (Some device) WmSize true ;;
  match Py.search_size size with
  | None => ret tt
  | Some (a, b) =>
      w <- lift (of_option ValueError (Py.int a)) ;;
      h <- lift (of_option ValueError (Py.int b)) ;;
      let start_x := w / 2 in
      start_y <- lift (Float.int_mul h Float.c0_8) ;;
      end_y <- lift (Float.int_mul h Float.c0_2) ;;
      print (MsgSwipeUp device) ;;;
      adb_call (Some device) (Swipe start_x start_y start_x end_y 350) false ;;;
      ret tt
  end.

Definition open_dialer (device : string) : M world unit :=
  adb_call (Some device) StartDial false ;;; ret tt.

Definition get_ui_dump (device : string) : M world ET.text :=
  adb_call (Some device) UiDump false ;;;
  adb_call (Some device) (Pull ("dialer_" ++ device ++ ".xml")) false ;;;
  read_file ("dialer_" ++ device ++ ".xml").

(** The body of the loop of [parse_dialpad_coords]. *)
Definition parse_node (acc : coords) (node : ET.element) : result coords :=
  let bounds := ET.get node "bounds" "" in
  match ET.get_opt node "text" with
  | None => Ok acc
  | Some text =>
      if negb (Py.nonempty text) || negb (Py.contains (Py.strip text) alphabet)
      then Ok acc
      else
        c <-r center_of_bounds bounds ;;
        match c with
        | Some p => Ok (Dict.set (Py.strip text) p acc)
        | None => Ok acc
        end
  end.

Definition parse_dialpad_coords (xml : ET.text) : result coords :=
  tree <-r ET.fromstring xml ;;
  fold_result parse_node (ET.iter "node" tree) [].


(** One line of the cache, in [load_coords_cache]. *)
Definition load_line (acc : coords) (line : string) : result coords :=
  match Py.split_on ":"%char (Py.strip line) with
  | [k; val] =>
      match Py.split_on ","%char val with
      | [a; b] =>
          x <-r of_option ValueError (Py.int a) ;;
          y <-r of_option ValueError (Py.int b) ;;
          Ok (Dict.set k (x, y) acc)
      | _ => Raise ValueError
      end
  | _ => Raise ValueError
  end.

Definition load_coords_cache : M world (option coords) :=
  f <- gets cache_file ;;
  match f with
  | None => ret None
  | Some content =>
      c <- lift (fold_result load_line (Py.readlines content) []) ;;
      ret (Some c)
  end.

Definition tap (device : string) (x y : Z) : M world unit :=
  adb_call (Some device) (Tap x y) false ;;; ret tt.

Definition dial_code (device : string) (code : string) (c : coords)
  : M world unit :=
  for_each (chars code)
    (fun ch =>
       match Dict.get (char_key ch) c with
       | Some (x, y) => tap device x y
       | None => print (MsgMissingChar device ch)
       end) ;;;
  print (MsgFinished device code).

Definition press_call (device : string) : M world unit :=
  size <- adb_call (Some device) WmSize true ;;
  match Py.search_size size with
  | Some (a, b) =>
      w <- lift (of_option ValueError (Py.int a)) ;;
      h <- lift (of_option ValueError (Py.int b)) ;;
      tap device (w / 2) (h - 180)
  | None => ret tt
  end ;;;
  print (MsgCalled device).

Definition process_device (device : string) (c : coords) : M world unit :=
  print (MsgDetected device) ;;;
  wake_screen device ;;;
  swipe_up_to_unlock device ;;;
  open_dialer device ;;;
  dial_code device USSD_CODE c ;;;
  press_call device ;;;
  print (MsgDone device).

End V2.

(** ** M10AGINGSTART_V2.0.7.py *)

Module M10.

Definition APP_PACKAGE : string := "com.sprd.validationtools".

(** [time.time()] returns a binary64 float.  Between [2^30] and [2^31]
    seconds of the epoch these floats are the multiples of [2^-22] s, and
    the difference of two of them is exact: a clock reading is the number
    of such ticks. *)
Definition ticks_per_second : Z := 2 ^ 22.
Definition seconds (n : Z) : Z := n * ticks_per_second.

Definition RECHECK_INTERVAL : Z := 30.

Inductive command : Type :=
  | PowerDisplay                 (* shell dumpsys power | findstr 'Display Power' *)
  | KeyEvent (key : Z)           (* shell input keyevent key *)
  | Swipe (sx sy ex ey : Z)      (* shell input swipe sx sy ex ey *)
  | Pidof (package : string)     (* shell pidof package *)
  | WindowFocus                  (* shell dumpsys window windows | findstr mCurrentFocus *)
  | SecretCode (code : string).  (* shell am broadcast -a ...SECRET_CODE -d android_secret_code://code *)

(** A row of the log: the time stamp column is left out. *)
Record outcome : Type := mkOutcome {
  o_device : string;
  o_status : string;
  o_duration : Z
}.

(** The outside world and the module variables.  [adb_reply n] is how the
    [n]-th call of [adb] ends, [devices_reply n] how the [n]-th listing of
    the devices ends, [time_reply n] what the [n]-th call of [time.time()]
    returns. *)
Record world : Type := mkWorld {
  adb_reply : nat -> result string;
  devices_reply : nat -> result string;
  time_reply : nat -> Z;
  calls : nat;
  polls : nat;
  reads : nat;
  trace : list (string * command);
  csv : list outcome;
  processed_sessions : gmap string Z;
  device_last_seen : gmap string Z;
  processed_devices : Z;
  total_time : Z
}.

Definition set_calls (n : nat) (tr : list (string * command)) (w : world) :=
  mkWorld (adb_reply w) (devices_reply w) (time_reply w) n (polls w) (reads w)
          tr (csv w) (processed_sessions w) (device_last_seen w)
          (processed_devices w) (total_time w).

Definition set_polls (n : nat) (w : world) :=
  mkWorld (adb_reply w) (devices_reply w) (time_reply w) (calls w) n (reads w)
          (trace w) (csv w) (processed_sessions w) (device_last_seen w)
          (processed_devices w) (total_time w).

Definition set_reads (n : nat) (w : world) :=
  mkWorld (adb_reply w) (devices_reply w) (time_reply w) (calls w) (polls w) n
          (trace w) (csv w) (processed_sessions w) (device_last_seen w)
          (processed_devices w) (total_time w).

Definition set_csv (rows : list outcome) (w : world) :=
  mkWorld (adb_reply w) (devices_reply w) (time_reply w) (calls w) (polls w)
          (reads w) (trace w) rows (processed_sessions w) (device_last_seen w)
          (processed_devices w) (total_time w).

Definition set_processed_sessions (m : gmap string Z) (w : world) :=
  mkWorld (adb_reply w) (devices_reply w) (time_reply w) (calls w) (polls w)
          (reads w) (trace w) (csv w) m (device_last_seen w)
          (processed_devices w) (total_time w).

Definition set_device_last_seen (m : gmap string Z) (w : world) :=
  mkWorld (adb_reply w) (devices_reply w) (time_reply w) (calls w) (polls w)
          (reads w) (trace w) (csv w) (processed_sessions w) m
          (processed_devices w) (total_time w).

Definition set_stats (n t : Z) (w : world) :=
  mkWorld (adb_reply w) (devices_reply w) (time_reply w) (calls w) (polls w)
          (reads w) (trace w) (csv w) (processed_sessions w)
          (device_last_seen w) n t.

(** [adb(cmd, device)]: [subprocess.run], then [stdout.strip()]. *)
Definition adb (cmd : command) (device : string) : M world string :=
  fun w =>
    let w' := set_calls (S (calls w)) (trace w ++ [(device, cmd)]) w in
    match adb_reply w (calls w) with
    | Ok out => (Ok (Py.strip out), w')
    | Raise e => (Raise e, w')
    end.

(** [time.time()] *)
Definition time : M world Z :=
  fun w => (Ok (time_reply w (reads w)), set_reads (S (reads w)) w).

Definition is_screen_on (device : string) : M world bool :=
  output <- adb PowerDisplay device ;;
  ret (Py.contains "state=ON" output
       || Py.contains "mHoldingDisplaySuspendBlocker=true" output).

Definition wake_and_unlock (device : string) : M world unit :=
  on <- is_screen_on device ;;
  (if negb on then adb (KeyEvent 26) device ;;; ret tt else ret tt) ;;;
  adb (KeyEvent 82) device ;;;
  adb (Swipe 500 1500 500 300) device ;;;
  ret tt.

Definition is_app_running (device : string) : M world bool :=
  output <- adb (Pidof APP_PACKAGE) device ;;
  ret (Py.nonempty (Py.strip output)).

Definition check_foreground (device : string) : M world bool :=
  output <- adb WindowFocus device ;;
  ret (Py.contains APP_PACKAGE output).

Definition launch_app (device : string) : M world unit :=
  adb (SecretCode "4321") device ;;; ret tt.

Definition log_to_csv (device status : string) (duration : Z) : M world unit :=
  modify (fun w => set_csv (csv w ++ [mkOutcome device status duration]) w).

(** Lines 126 to 132: the start time when a session begins, [None] when
    the handle is still cooling down. *)
Definition enter (device : string) : M world (option Z) :=
  start_time <- time ;;
  last <- gets (fun w => processed_sessions w !! device) ;;
  recent <-
    match last with
    | Some s => t <- time ;; ret (t - s <? seconds RECHECK_INTERVAL)
    | None => ret false
    end ;;
  if (recent : bool) then ret None
  else
    t <- time ;;
    modify (fun w => set_processed_sessions
                       (<[device := t]> (processed_sessions w)) w) ;;;
    ret (Some start_time).

(** Lines 138 to 170: launch and verification, giving the status. *)
Definition launch_and_verify (device : string) : M world string :=
  running <- is_app_running device ;;
  if (running : bool) then
    fg <- check_foreground device ;;
    if (fg : bool) then ret "Already Running"
    else
      launch_app device ;;;
      fg2 <- check_foreground device ;;
      ret (if (fg2 : bool) then "Brought to Foreground" else "Foreground Failed")
  else
    launch_app device ;;;
    fg <- check_foreground device ;;
    if (fg : bool) then ret "Launched"
    else
      launch_app device ;;;
      fg2 <- check_foreground device ;;
      ret (if (fg2 : bool) then "Launched After Retry" else "Failed").

(** Lines 134 to 183: the session proper. *)
Definition session (device : string) (start_time : Z) : M world unit :=
  wake_and_unlock device ;;;
  status <- launch_and_verify device ;;
  t <- time ;;
  let duration := t - start_time in
  log_to_csv device status duration ;;;
  modify (fun w => set_stats (processed_devices w + 1)
                             (total_time w + duration) w).

Definition process_device (device : string) : M world unit :=
  st <- enter device ;;
  match st with
  | None => ret tt
  | Some start_time => session device start_time
  end.

(** The device handles in the output of [adb devices]. *)
Definition attached (out : string) : list string :=
  List.map (fun line => List.hd EmptyString (Py.split_on "009"%char line))
    (List.map Py.strip
       (List.filter (fun line => Py.contains (String "009"%char "device") line)
                    (Py.splitlines out))).

(** Lines 196 to 199 for one handle: [true] when a worker is started. *)
Definition observe (current_time : Z) (device : string) : M world bool :=
  last <- gets (fun w => device_last_seen w !! device) ;;
  if match last with
     | None => true
     | Some s => seconds 5 <? current_time - s
     end
  then
    modify (fun w => set_device_last_seen
                       (<[device := current_time]> (device_last_seen w)) w) ;;;
    ret true
  else ret false.

Fixpoint observe_all (current_time : Z) (devices : list string)
  : M world (list string) :=
  match devices with
  | [] => ret []
  | d :: rest =>
      started <- observe current_time d ;;
      more <- observe_all current_time rest ;;
      ret (if (started : bool) then d :: more else more)
  end.

Definition forget_all (gone : list string) (m : gmap string Z) : gmap string Z :=
  List.fold_right (fun d acc => delete d acc) m gone.

(** Lines 202 to 205: handles that are no longer attached. *)
Definition clean_disconnected (current : list string) : M world unit :=
  modify (fun w =>
    let gone :=
      List.filter (fun d => negb (bool_decide (d ∈ current)))
                  (List.map fst (map_to_list (device_last_seen w))) in
    set_processed_sessions (forget_all gone (processed_sessions w))
      (set_device_last_seen (forget_all gone (device_last_seen w)) w)).

(** One turn of the loop of [poll_devices]: the handles for which a
    worker thread is started. *)
Definition poll_once : M world (list string) :=
  out <- (fun w => (devices_reply w (polls w), set_polls (S (polls w)) w)) ;;
  let current_devices := attached out in
  current_time <- time ;;
  started <- observe_all current_time current_devices ;;
  clean_disconnected current_devices ;;;
  ret started.

(** *** Workers

    Every worker runs [process_device] on its handle.  A schedule
    interleaves the turns of the polling loop with the workers, each of
    which runs in two steps: [enter], then the session. *)

Inductive phase : Type :=
  | Spawned
  | Live (start_time : Z)
  | Skipped
  | Finished
  | Crashed (e : exn).

Record system : Type := mkSystem {
  sys_world : world;
  pool : list (string * phase);
  poller_alive : bool
}.

Inductive action : Type :=
  | Poll
  | Enter (i : nat)
  | Finish (i : nat).

Definition set_phase (i : nat) (p : phase) (l : list (string * phase))
  : list (string * phase) :=
  match l !! i with
  | Some (d, _) => <[i := (d, p)]> l
  | None => l
  end.

Definition step (a : action) (s : system) : system :=
  match a with
  | Poll =>
      if poller_alive s then
        match poll_once (sys_world s) with
        | (Ok started, w') =>
            mkSystem w' (pool s ++ List.map (fun d => (d, Spawned)) started) true
        | (Raise _, w') => mkSystem w' (pool s) false
        end
      else s
  | Enter i =>
      match pool s !! i with
      | Some (d, Spawned) =>
          match enter d (sys_world s) with
          | (Ok (Some t0), w') =>
              mkSystem w' (set_phase i (Live t0) (pool s)) (poller_alive s)
          | (Ok None, w') =>
              mkSystem w' (set_phase i Skipped (pool s)) (poller_alive s)
          | (Raise e, w') =>
              mkSystem w' (set_phase i (Crashed e) (pool s)) (poller_alive s)
          end
      | _ => s
      end
  | Finish i =>
      match pool s !! i with
      | Some (d, Live t0) =>
          match session d t0 (sys_world s) with
          | (Ok _, w') =>
              mkSystem w' (set_phase i Finished (pool s)) (poller_alive s)
          | (Raise e, w') =>
              mkSystem w' (set_phase i (Crashed e) (pool s)) (poller_alive s)
          end
      | _ => s
      end
  end.

Definition run (schedule : list action) (s : system) : system :=
  List.fold_left (fun s a => step a s) schedule s.

Definition is_live (device : string) (t : string * phase) : bool :=
  match t with
  | (d, Live _) => String.eqb d device
  | _ => false
  end.

(** The live sessions of a handle. *)
Definition live_sessions (device : string) (s : system) : nat :=
  List.length (List.filter (is_live device) (pool s)).

Definition has_begun (device : string) (t : string * phase) : bool :=
  match t with
  | (d, Live _) | (d, Finished) | (d, Crashed _) => String.eqb d device
  | _ => false
  end.

Definition start (adb_r devices_r : nat -> result string) (time_r : nat -> Z)
  : system :=
  mkSystem (mkWorld adb_r devices_r time_r 0 0 0 [] [] ∅ ∅ 0 0) [] true.

End M10.

(** ** Notions used in the statements *)

(** The transport answers every call. *)
Definition answers (w : world) : Prop :=
  forall n, exists out, adb_reply w n = Ok out.


Definition tap_event (device : string) (p : point) : event :=
  Adb (Some device) (Tap (fst p) (snd p)) false.

Fixpoint all_digits (s : string) : bool :=
  match s with
  | EmptyString => true
  | String c s' => Py.is_digit c && all_digits s'
  end.

(** The corners a [bounds] attribute gives: two pairs, read as integers. *)
Definition box_of_bounds (bounds : string) : option (Z * Z * Z * Z) :=
  match Py.findall_pairs bounds with
  | [(x1, y1); (x2, y2)] =>
      match Py.int x1, Py.int y1, Py.int x2, Py.int y2 with
      | Some a, Some b, Some c, Some d => Some (a, b, c, d)
      | _, _, _, _ => None
      end
  | _ => None
  end.

(** The centre of a box with integer division that rounds toward zero. *)
Definition midpoint (box : Z * Z * Z * Z) : point :=
  let '(x1, y1, x2, y2) := box in (Z.quot (x1 + x2) 2, Z.quot (y1 + y2) 2).

Definition nonneg_box (box : Z * Z * Z * Z) : Prop :=
  let '(x1, y1, x2, y2) := box in 0 <= x1 /\ 0 <= y1 /\ 0 <= x2 /\ 0 <= y2.

(** The key under which [V2.parse_dialpad_coords] files a node. *)
Definition v2_node_key (node : ET.element) : option string :=
  match ET.get_opt node "text" with
  | Some text =>
      if Py.nonempty text && Py.contains (Py.strip text) alphabet
      then Some (Py.strip text) else None
  | None => None
  end.


(** A small dump: a frame that holds the keys 1 and 2, a key without
    usable bounds and a label. *)
Definition key_node (text bounds : string) : ET.element :=
  ET.Element "node" [("text", text); ("bounds", bounds)] [].

Definition sample_dump : ET.element :=
  ET.Element "hierarchy" []
    [ET.Element "node" [("bounds", "[0,0][720,1612]")]
       [key_node "1" "[0,96][240,265]";
        key_node "2" "[240,96][480,265]";
        key_node "3" "[480,96]";
        key_node "Phone" "[0,0][720,96]"]].


(** A key that a line of the cache gives back: no colon, no newline, no
    white space in front. *)
Definition plain_key (k : string) : bool :=
  negb (Py.has_char ":"%char k) && negb (Py.has_char "010"%char k)
  && match k with
     | EmptyString => true
     | String c _ => negb (Py.is_space c)
     end.

(** The characters [str(n)] is made of. *)
Definition numeral_char (c : ascii) : bool :=
  Py.is_digit c || Ascii.eqb c "-"%char.

(** What a loop of assignments [d[k] = v] leaves. *)
Definition assign_all {V} (kvs : list (string * V)) (d : Dict.t V) : Dict.t V :=
  List.fold_left (fun acc kv => Dict.set (fst kv) (snd kv) acc) kvs d.

(** A world whose transport answers every call with nothing, and in
    which no dump can be read. *)
Definition quiet_world : world :=
  mkWorld (fun _ => Ok EmptyString) (fun _ => Raise IOError) 0 [] None None.

(** The grid of a 720x1612 screen, as a sample of a full map. *)
Definition sample_coords : coords :=
  Eval vm_compute in
    match Polling.grid_of_size 720 1612 with
    | Ok c => c
    | Raise _ => []
    end.

(** The layout of the fallback grid: the twelve keys row by row over
    three columns and four rows, then CALL. *)
Definition grid_map (cols rows : list Z) (call : point) : coords :=
  match cols, rows with
  | [c0; c1; c2], [r0; r1; r2; r3] =>
      [("1", (c0, r0)); ("2", (c1, r0)); ("3", (c2, r0));
       ("4", (c0, r1)); ("5", (c1, r1)); ("6", (c2, r1));
       ("7", (c0, r2)); ("8", (c1, r2)); ("9", (c2, r2));
       ("*", (c0, r3)); ("0", (c1, r3)); ("#", (c2, r3));
       ("CALL", call)]
  | _, _ => []
  end.

Definition in_screen (w h : Z) (p : point) : Prop :=
  0 <= fst p <= w /\ 0 <= snd p <= h.

(** What the fallback grid is said to be, for a device whose screen is
    [w] by [h]: the thirteen keys in place, CALL at [(w/2, int(0.93 h))],
    the points pairwise distinct and on the screen. *)
Definition grid_as_claimed (w h : Z) (c : coords) : Prop :=
  (exists cols rows cy,
      List.length cols = 3%nat /\ List.length rows = 4%nat
      /\ Float.int_mul h Float.c0_93 = Ok cy
      /\ c = grid_map cols rows (w / 2, cy))
  /\ NoDup (Dict.values c)
  /\ Forall (in_screen w h) (Dict.values c).

(** A world in which every adb call prints [out]. *)
Definition world_saying (out : string) : world :=
  mkWorld (fun _ => Ok out) (fun _ => Raise IOError) 0 [] None None.

(** The rows of the fallback grid, from the band [top, bottom]. *)
Definition grid_rows (top bottom : Z) : list Z :=
  List.map (fun i => top + (bottom - top) * i / 4) [0; 1; 2; 3].

(** The statement about the fallback grid, for a device that answers
    [wm size] with [out]. *)
Definition grid_claim_at (out : string) : Prop :=
  exists c w' W H,
    Polling.fallback_grid "emulator-5554" (world_saying out) = (Ok c, w')
    /\ Polling.screen_size out = Ok (W, H)
    /\ grid_as_claimed W H c.

(** What the resolver takes from the dump: lines 230 to 233. *)
Definition snapshot_keys (xml : option ET.text) : coords :=
  match xml with
  | Some x =>
      if ET.truthy x then
        match Polling.parse_coords_from_ui x with
        | Ok c => c
        | Raise _ => []
        end
      else []
  | None => []
  end.

(** The end of [prepare_coords_for_device]: the map is published, saved
    and announced. *)
Definition published (device : string) (c : coords) (w : world) : world :=
  log (Print (MsgUsingKeys device (Dict.keys c)))
      (set_cache_file (Some (Polling.cache_text c))
         (set_global_coords (Some c) w)).

(** A world whose transport prints [out] to every call and whose pulled
    dump is the document [root]. *)
Definition world_showing (root : ET.element) (out : string) : world :=
  mkWorld (fun _ => Ok out) (fun _ => Ok (ET.Document root)) 0 [] None None.

Definition dial_pad (keys : list (string * string)) (more : list ET.element)
  : ET.element :=
  ET.Element "hierarchy" []
    (List.map (fun kb => key_node (fst kb) (snd kb)) keys ++ more)%list.



(** A complete dial pad whose call button carries the text "Dial" only. *)
Definition full_pad_dump : ET.element :=
  dial_pad
    [("1", "[0,800][240,950]"); ("2", "[240,800][480,950]");
     ("3", "[480,800][720,950]"); ("4", "[0,950][240,1100]");
     ("5", "[240,950][480,1100]"); ("6", "[480,950][720,1100]");
     ("7", "[0,1100][240,1250]"); ("8", "[240,1100][480,1250]");
     ("9", "[480,1100][720,1250]"); ("*", "[0,1250][240,1400]");
     ("0", "[240,1250][480,1400]"); ("#", "[480,1250][720,1400]")]
    [key_node "Dial" "[280,1400][440,1560]"].

(** The launch invocations in a trace of the launcher script. *)
Definition is_launch (e : string * M10.command) : bool :=
  match snd e with M10.SecretCode _ => true | _ => false end.

Definition launch_count (tr : list (string * M10.command)) : nat :=
  List.length (List.filter is_launch tr).

(** The six outcomes of a session. *)
Definition statuses : list string :=
  ["Already Running"; "Brought to Foreground"; "Foreground Failed";
   "Launched"; "Launched After Retry"; "Failed"].

(** A world of the launcher script, from its three oracles. *)
Definition m10_world (adb_r devices_r : nat -> result string)
    (time_r : nat -> Z) : M10.world :=
  M10.mkWorld adb_r devices_r time_r 0 0 0 [] [] ∅ ∅ 0 0.

(** What the calls of a session leave alone. *)
Definition m10_frame (w w' : M10.world) : Prop :=
  M10.adb_reply w' = M10.adb_reply w
  /\ M10.devices_reply w' = M10.devices_reply w
  /\ M10.time_reply w' = M10.time_reply w
  /\ M10.polls w' = M10.polls w /\ M10.reads w' = M10.reads w
  /\ M10.csv w' = M10.csv w
  /\ M10.processed_sessions w' = M10.processed_sessions w
  /\ M10.device_last_seen w' = M10.device_last_seen w
  /\ M10.processed_devices w' = M10.processed_devices w
  /\ M10.total_time w' = M10.total_time w.




(** The sessions of a handle that have begun: live, finished or
    crashed. *)
Definition begun_count (device : string) (s : M10.system) : nat :=
  List.length (List.filter (M10.has_begun device) (M10.pool s)).

(** [adb devices] showing one device. *)
Definition one_device : string :=
  "List of devices attached" ++ String "010"
    ("emulator-5554" ++ String "009" ("device" ++ String "010" EmptyString)).

(** Clock readings, in seconds, of a run in which the loop polls every
    three seconds and the first session never returns. *)
Definition hung_clock : list Z :=
  [0; 0; 0; 3; 6; 6; 6; 9; 12; 12; 12; 15; 18; 18; 18; 21; 24; 24; 24; 27;
   30; 30; 30; 30].

Definition hung_start : M10.system :=
  M10.start (fun _ => Ok EmptyString) (fun _ => Ok one_device)
            (fun n => M10.seconds (List.nth n hung_clock 30)).

(** The loop polls every three seconds; every worker it starts runs its
    first step at once; the session of worker 0 stays open. *)
Definition hung_schedule : list M10.action :=
  [M10.Poll; M10.Enter 0; M10.Poll;
   M10.Poll; M10.Enter 1; M10.Poll;
   M10.Poll; M10.Enter 2; M10.Poll;
   M10.Poll; M10.Enter 3; M10.Poll;
   M10.Poll; M10.Enter 4; M10.Poll;
   M10.Poll; M10.Enter 5].

(** A system in which a session began at time 0 and the clock then
    shows 6 s. *)
Definition cooling_system : M10.system :=
  M10.run [M10.Poll; M10.Enter 0]
    (M10.start (fun _ => Ok EmptyString) (fun _ => Ok one_device)
       (fun n => match n with
                 | O | 1%nat | 2%nat => 0
                 | _ => M10.seconds 6
                 end)).

(** ** Further notions *)

(** The counter of processed devices and the log move together. *)
Definition m10_balanced (w : M10.world) : Prop :=
  M10.processed_devices w = Z.of_nat (List.length (M10.csv w)).

(** A key of a dial pad: a piece of ["0123456789*#"] that is not empty,
    or CALL. *)
Definition dial_key (k : string) : bool :=
  (Py.nonempty k && Py.contains k alphabet) || String.eqb k "CALL".



(** ** The loop of [main_loop] (polling script)

    One turn, given the set of handles [list_devices] returned: the
    handles a worker thread is started for, and the set [seen] the turn
    leaves. *)
Definition main_loop_turn (seen current : gset string)
  : gset string * gset string :=
  let new := current ∖ seen in
  let seen1 := seen ∪ new in
  let gone := seen1 ∖ current in
  (new, seen1 ∖ gone).

(** The turns of the loop over successive listings: what each turn
    starts.  The loop ends with the first listing that raises. *)
Fixpoint main_loop_starts (seen : gset string) (listings : list (gset string))
  : list (gset string) :=
  match listings with
  | [] => []
  | current :: rest =>
      let turn := main_loop_turn seen current in
      fst turn :: main_loop_starts (snd turn) rest
  end.



(** ** [list_devices] (polling script) *)

(** [line.split()[0]] for a line that is not empty and does not begin
    with white space, as a stripped line is: the characters up to the
    first white space. *)
Fixpoint first_word (s : string) : string :=
  match s with
  | EmptyString => EmptyString
  | String c s' => if Py.is_space c then EmptyString else String c (first_word s')
  end.

(** The body of the loop of [list_devices], for one line. *)
Definition listed_device (line : string) : list string :=
  let line := Py.strip line in
  if negb (Py.nonempty line) then []
  else if Py.contains (String "009"%char "device") line then [first_word line]
  else [].

Definition list_devices : M world (list string) :=
  out <- adb_call None Devices true ;;
  ret (List.flat_map listed_device (List.tl (Py.splitlines out))).

(** * Properties *)

Local Open Scope list_scope.

(** ** The primitives on examples *)


Example py_strip_ex : Py.strip "  1 2
" = "1 2".
Proof. reflexivity. Qed.

Example py_int_ex :
  Py.int " -12_0 " = Some (-120) /\ Py.int "1__0" = None /\ Py.int "" = None
  /\ Py.int "+7" = Some 7 /\ Py.int "- 7" = None.
Proof. repeat split; reflexivity. Qed.

Example py_str_ex : Py.str (-5) = "-5" /\ Py.str 0 = "0" /\ Py.str 1612 = "1612".
Proof. repeat split; reflexivity. Qed.

Example py_findall_ex :
  Py.findall_pairs "[0,96][240,264]" = [("0", "96"); ("240", "264")]
  /\ Py.findall_pairs "[12[3,4]x[5,]" = [("3", "4")].
Proof. split; reflexivity. Qed.

Example py_search_size_ex :
  Py.search_size "Physical size: 720x1612" = Some ("720", "1612")
  /\ Py.search_size "12 x 7" = None.
Proof. split; reflexivity. Qed.

Example py_split_ex :
  Py.split_on ":" "a:b:c" = ["a"; "b"; "c"] /\ Py.split_on ":" "" = [""]
  /\ Py.readlines "a
b
" = ["a
"; "b
"].
Proof. repeat split; reflexivity. Qed.

Example float_int_mul_ex :
  Float.int_mul 1612 Float.c0_45 = Ok 725
  /\ Float.int_mul 1612 Float.c0_85 = Ok 1370
  /\ Float.int_mul 720 Float.c0_12 = Ok 86
  /\ Float.int_mul 720 Float.c0_88 = Ok 633
  /\ Float.int_mul 1612 Float.c0_93 = Ok 1499.
Proof. repeat split; vm_compute; reflexivity. Qed.

Example py_splitlines_ex :
  Py.splitlines (String "a" (String "013" (String "010" (String "b" (String "010" EmptyString)))))
  = ["a"; "b"].
Proof. reflexivity. Qed.

Example m10_attached_ex :
  M10.attached
    ("List of devices attached" ++ String "010" ("R58M" ++ String "009" ("device"
     ++ String "010" ("X9" ++ String "009" ("offline" ++ String "010" EmptyString)))))%string
  = ["R58M"].
Proof. reflexivity. Qed.

(** ** The transport *)

Section Transport.
Variable w : world.
Hypothesis Hw : answers w.

Lemma answers_log e : answers (log e w).
Proof. exact Hw. Qed.

Lemma answers_advance : answers (advance w).
Proof. exact Hw. Qed.


End Transport.

Lemma print_run m w : print m w = (Ok tt, log (Print m) w).
Proof. reflexivity. Qed.






(** ** Typing the code *)




(** ** Digits and integers *)

Lemma digit_not_int_space c : Py.is_digit c = true -> Py.int_space c = false.
Proof. destruct c as [[] [] [] [] [] [] [] []]; vm_compute; congruence. Qed.

Lemma digit_not_sign c :
  Py.is_digit c = true ->
  Ascii.eqb c "-" = false /\ Ascii.eqb c "+" = false /\ Ascii.eqb c "_" = false.
Proof. destruct c as [[] [] [] [] [] [] [] []]; vm_compute; intuition congruence. Qed.

Lemma digit_uint_of_char c d :
  Py.is_digit c = true -> exists d', uint_of_char c (Some d) = Some d'.
Proof.
  destruct c as [[] [] [] [] [] [] [] []]; vm_compute; intros H;
    try discriminate H; eauto.
Qed.

Lemma rstrip_by_fixed sp s :
  (forall c, In c (chars s) -> sp c = false) -> Py.rstrip_by sp s = s.
Proof.
  induction s as [|c s IH]; intros H; simpl; [reflexivity|].
  rewrite IH by (intros c' Hc'; apply H; right; exact Hc').
  destruct s; [|reflexivity].
  rewrite (H c) by (left; reflexivity). reflexivity.
Qed.

Lemma lstrip_by_fixed sp c s : sp c = false -> Py.lstrip_by sp (String c s) = String c s.
Proof. intros H. simpl. rewrite H. reflexivity. Qed.

Lemma all_digits_chars s c : all_digits s = true -> In c (chars s) -> Py.is_digit c = true.
Proof.
  induction s as [|a s IH]; simpl; [tauto|].
  intros H [->|Hin]; apply andb_true_iff in H; destruct H; auto.
Qed.

Lemma all_digits_strip s : all_digits s = true -> Py.strip_by Py.int_space s = s.
Proof.
  intros H. unfold Py.strip_by.
  assert (Hl : Py.lstrip_by Py.int_space s = s).
  { destruct s as [|c s]; [reflexivity|]. apply lstrip_by_fixed.
    apply digit_not_int_space. simpl in H. apply andb_true_iff in H. tauto. }
  rewrite Hl. apply rstrip_by_fixed.
  intros c Hc. apply digit_not_int_space. eapply all_digits_chars; eauto.
Qed.

Lemma all_digits_tail s : all_digits s = true -> Py.digits_tail s = true.
Proof.
  induction s as [|c s IH]; simpl; [reflexivity|].
  intros H. apply andb_true_iff in H. destruct H as [Hc Hs].
  rewrite Hc. auto.
Qed.

Lemma all_digits_drop s : all_digits s = true -> Py.drop_underscores s = s.
Proof.
  induction s as [|c s IH]; simpl; [reflexivity|].
  intros H. apply andb_true_iff in H. destruct H as [Hc Hs].
  destruct (digit_not_sign c Hc) as (_ & _ & ->). rewrite IH by exact Hs.
  reflexivity.
Qed.

Lemma all_digits_uint s :
  all_digits s = true -> exists u, NilEmpty.uint_of_string s = Some u.
Proof.
  induction s as [|c s IH]; simpl; [eauto|].
  intros H. apply andb_true_iff in H. destruct H as [Hc Hs].
  destruct (IH Hs) as [u ->]. apply digit_uint_of_char, Hc.
Qed.

Lemma of_uint_nonneg u : 0 <= Z.of_uint u.
Proof. unfold Z.of_uint. apply N2Z.is_nonneg. Qed.

(** [int()] reads every non-empty run of digits, as a natural number. *)
Lemma int_of_digits s :
  all_digits s = true -> Py.nonempty s = true ->
  exists n, Py.int s = Some n /\ 0 <= n.
Proof.
  intros Hd Hn. unfold Py.int. rewrite (all_digits_strip s Hd).
  destruct s as [|c s]; [discriminate Hn|].
  pose proof Hd as Hd'. simpl in Hd'. apply andb_true_iff in Hd'.
  destruct Hd' as [Hc Hs].
  destruct (digit_not_sign c Hc) as (-> & -> & _).
  unfold Py.valid_digits. rewrite Hc, (all_digits_tail s Hs). simpl andb.
  cbv iota. rewrite (all_digits_drop _ Hd).
  destruct (all_digits_uint _ Hd) as [u ->].
  exists (Z.of_uint u). split; [reflexivity | apply of_uint_nonneg].
Qed.

Lemma span_digits_spec s :
  all_digits (fst (Py.span_digits s)) = true
  /\ (String.length (snd (Py.span_digits s)) <= String.length s)%nat.
Proof.
  induction s as [|c s [IH1 IH2]]; simpl; [auto|].
  destruct (Py.is_digit c) eqn:Hc.
  - destruct (Py.span_digits s) as [d r]. simpl in *. rewrite Hc, IH1. split; [reflexivity|lia].
  - simpl. split; [reflexivity|lia].
Qed.

Lemma match_pair_spec s x y rest :
  Py.match_pair s = Some ((x, y), rest) ->
  all_digits x = true /\ Py.nonempty x = true
  /\ all_digits y = true /\ Py.nonempty y = true
  /\ (String.length rest < String.length s)%nat.
Proof.
  unfold Py.match_pair. destruct s as [|c s1]; [discriminate|].
  destruct (Ascii.eqb c "["); [|discriminate].
  pose proof (span_digits_spec s1) as [Hx Hlx].
  destruct (Py.span_digits s1) as [x' s2]. simpl in Hx, Hlx.
  destruct (Py.nonempty x') eqn:Hnx; [|discriminate].
  destruct s2 as [|c2 s3]; [discriminate|].
  destruct (Ascii.eqb c2 ","); [|discriminate].
  pose proof (span_digits_spec s3) as [Hy Hly].
  destruct (Py.span_digits s3) as [y' s4]. simpl in Hy, Hly.
  destruct (Py.nonempty y') eqn:Hny; [|discriminate].
  destruct s4 as [|c4 s5]; [discriminate|].
  destruct (Ascii.eqb c4 "]"); [|discriminate].
  intros H. injection H as <- <- <-. simpl in *. repeat split; auto. lia.
Qed.

Lemma findall_pairs_digits fuel : forall s x y,
  In (x, y) (Py.findall_pairs_from fuel s) ->
  all_digits x = true /\ Py.nonempty x = true
  /\ all_digits y = true /\ Py.nonempty y = true.
Proof.
  induction fuel as [|fuel IH]; intros s x y; simpl; [tauto|].
  destruct (Py.match_pair s) as [[[x' y'] rest]|] eqn:Hm.
  - intros [Heq|Hin]; [|eapply IH; eauto].
    injection Heq as <- <-. apply match_pair_spec in Hm. tauto.
  - destruct s; [simpl; tauto|]. apply IH.
Qed.

(** ** Bounds and centres *)

Lemma center_of_bounds_cases b :
  (List.length (Py.findall_pairs b) <> 2%nat
   /\ center_of_bounds b = Ok None /\ box_of_bounds b = None)
  \/ (exists bx,
        List.length (Py.findall_pairs b) = 2%nat
        /\ box_of_bounds b = Some bx /\ nonneg_box bx
        /\ center_of_bounds b = Ok (Some (midpoint bx))).
Proof.
  unfold center_of_bounds, box_of_bounds.
  pose proof (findall_pairs_digits (S (String.length b)) b) as Hd.
  fold (Py.findall_pairs b) in Hd.
  destruct (Py.findall_pairs b) as [|[x1 y1] [|[x2 y2] [|p l]]];
    try (left; simpl; repeat split; congruence).
  right.
  destruct (Hd x1 y1) as (Hx1 & Nx1 & Hy1 & Ny1); [simpl; auto|].
  destruct (Hd x2 y2) as (Hx2 & Nx2 & Hy2 & Ny2); [simpl; auto|].
  destruct (int_of_digits x1 Hx1 Nx1) as (a & -> & Ha).
  destruct (int_of_digits y1 Hy1 Ny1) as (c & -> & Hc).
  destruct (int_of_digits x2 Hx2 Nx2) as (b' & -> & Hb).
  destruct (int_of_digits y2 Hy2 Ny2) as (d & -> & Hd').
  exists (a, c, b', d). simpl. repeat split; auto.
  rewrite !Z.quot_div_nonneg by lia. reflexivity.
Qed.


(** ** Dictionaries *)



Lemma dict_get_In {V} k (v : V) d : Dict.get k d = Some v -> In (k, v) d.
Proof.
  induction d as [|[k0 v0] d IH]; simpl; [discriminate|].
  destruct (String.eqb k0 k) eqn:E.
  - apply String.eqb_eq in E. intros [= ->]. left. congruence.
  - auto.
Qed.

Lemma dict_set_fresh {V} k (v : V) d :
  ~ In k (Dict.keys d) -> Dict.set k v d = d ++ [(k, v)].
Proof.
  induction d as [|[k0 v0] d IH]; simpl; intros H; [reflexivity|].
  destruct (String.eqb k0 k) eqn:E.
  - apply String.eqb_eq in E. tauto.
  - rewrite IH by tauto. reflexivity.
Qed.

Lemma dict_keys_set {V} k (v : V) d :
  Dict.keys (Dict.set k v d)
  = if Dict.mem k d then Dict.keys d else Dict.keys d ++ [k].
Proof.
  unfold Dict.mem. induction d as [|[k0 v0] d IH]; simpl; [reflexivity|].
  destruct (String.eqb k0 k) eqn:E; simpl; [reflexivity|].
  rewrite IH. destruct (Dict.get k d); reflexivity.
Qed.

(** ** The snapshot parser *)


(** What one turn of the loop does: the map is left alone, or the node's
    key gets the centre of the node's bx. *)
Lemma polling_parse_node_cases acc node :
  Polling.parse_node acc node = Ok acc
  \/ exists k bx,
       Polling.node_key node = Some k
       /\ box_of_bounds (ET.get node "bounds" "") = Some bx
       /\ nonneg_box bx
       /\ Polling.parse_node acc node = Ok (Dict.set k (midpoint bx) acc).
Proof.
  unfold Polling.parse_node.
  destruct (Polling.node_key node) as [k|] eqn:Hk; [|auto].
  destruct (Py.nonempty k && Py.nonempty (ET.get node "bounds" "")); [|auto].
  destruct (center_of_bounds_cases (ET.get node "bounds" ""))
    as [(_ & -> & _)|(bx & _ & Hb & Hn & ->)]; simpl; [auto|].
  right. exists k. exists bx. auto.
Qed.

Lemma v2_parse_node_cases acc node :
  V2.parse_node acc node = Ok acc
  \/ exists k bx,
       v2_node_key node = Some k
       /\ box_of_bounds (ET.get node "bounds" "") = Some bx
       /\ nonneg_box bx
       /\ V2.parse_node acc node = Ok (Dict.set k (midpoint bx) acc).
Proof.
  unfold V2.parse_node, v2_node_key.
  destruct (ET.get_opt node "text") as [text|]; [|auto].
  destruct (Py.nonempty text); [|left; reflexivity].
  destruct (Py.contains (Py.strip text) alphabet) eqn:Hc; [|left; reflexivity].
  cbn [negb orb andb].
  destruct (center_of_bounds_cases (ET.get node "bounds" ""))
    as [(_ & -> & _)|(bx & _ & Hb & Hn & ->)]; cbn [rbind]; [auto|].
  right. exists (Py.strip text). exists bx. auto.
Qed.

Lemma polling_parse_nodes_total nodes : forall acc,
  exists m, fold_result Polling.parse_node nodes acc = Ok m.
Proof.
  induction nodes as [|node nodes IH]; intros acc; simpl; [eauto|].
  destruct (polling_parse_node_cases acc node) as [->|(k & bx & _ & _ & _ & ->)];
    simpl; apply IH.
Qed.





(** ** Tap points are centres *)

Section Centres.
Variable key_of : ET.element -> option string.
Variable parse_node : coords -> ET.element -> result coords.
Hypothesis parse_node_cases : forall acc node,
  parse_node acc node = Ok acc
  \/ exists k bx,
       key_of node = Some k
       /\ box_of_bounds (ET.get node "bounds" "") = Some bx
       /\ nonneg_box bx
       /\ parse_node acc node = Ok (Dict.set k (midpoint bx) acc).

End Centres.



(** ** Printing and reading integers *)

Lemma string_of_uint_digits d : all_digits (NilEmpty.string_of_uint d) = true.
Proof. induction d; simpl; auto. Qed.

Lemma string_of_uint_nonempty d :
  d <> Nil -> Py.nonempty (NilEmpty.string_of_uint d) = true.
Proof. destruct d; simpl; congruence. Qed.

Lemma int_of_digits_value s u :
  all_digits s = true -> Py.nonempty s = true ->
  NilEmpty.uint_of_string s = Some u -> Py.int s = Some (Z.of_uint u).
Proof.
  intros Hd Hn Hu. unfold Py.int. rewrite (all_digits_strip s Hd).
  destruct s as [|c s]; [discriminate Hn|].
  pose proof Hd as Hd'. simpl in Hd'. apply andb_true_iff in Hd'.
  destruct Hd' as [Hc Hs].
  destruct (digit_not_sign c Hc) as (-> & -> & _).
  unfold Py.valid_digits. rewrite Hc, (all_digits_tail s Hs). simpl andb.
  cbv iota. rewrite (all_digits_drop _ Hd), Hu. reflexivity.
Qed.

Lemma int_of_minus_digits_value s u :
  all_digits s = true -> Py.nonempty s = true ->
  NilEmpty.uint_of_string s = Some u ->
  Py.int (String "-" s) = Some (- Z.of_uint u).
Proof.
  intros Hd Hn Hu. unfold Py.int.
  assert (Hst : Py.strip_by Py.int_space (String "-" s) = String "-" s).
  { unfold Py.strip_by. rewrite lstrip_by_fixed by reflexivity.
    apply rstrip_by_fixed. intros c [<-|Hc]; [reflexivity|].
    apply digit_not_int_space. eapply all_digits_chars; eauto. }
  rewrite Hst. cbn [Ascii.eqb Bool.eqb]. cbv iota.
  destruct s as [|c s]; [discriminate Hn|].
  pose proof Hd as Hd'. simpl in Hd'. apply andb_true_iff in Hd'.
  destruct Hd' as [Hc Hs].
  unfold Py.valid_digits. rewrite Hc, (all_digits_tail s Hs). simpl andb.
  cbv iota. rewrite (all_digits_drop _ Hd), Hu. reflexivity.
Qed.

(** Reading what was printed gives the integer back. *)
Lemma int_str n : Py.int (Py.str n) = Some n.
Proof.
  unfold Py.str. destruct n as [|p|p]; [reflexivity| |].
  - simpl Z.to_int. cbn [NilZero.string_of_int].
    assert (Hnn := DecimalPos.Unsigned.to_uint_nonnil p).
    assert (Hs : NilZero.string_of_uint (Pos.to_uint p)
                 = NilEmpty.string_of_uint (Pos.to_uint p)).
    { destruct (Pos.to_uint p); [congruence|reflexivity..]. }
    rewrite Hs.
    rewrite (int_of_digits_value _ (Pos.to_uint p)
               (string_of_uint_digits _) (string_of_uint_nonempty _ Hnn)
               (NilEmpty.usu _)).
    unfold Z.of_uint. rewrite DecimalPos.Unsigned.of_to. reflexivity.
  - simpl Z.to_int. cbn [NilZero.string_of_int].
    assert (Hnn := DecimalPos.Unsigned.to_uint_nonnil p).
    assert (Hs : NilZero.string_of_uint (Pos.to_uint p)
                 = NilEmpty.string_of_uint (Pos.to_uint p)).
    { destruct (Pos.to_uint p); [congruence|reflexivity..]. }
    rewrite Hs.
    rewrite (int_of_minus_digits_value _ (Pos.to_uint p)
               (string_of_uint_digits _) (string_of_uint_nonempty _ Hnn)
               (NilEmpty.usu _)).
    unfold Z.of_uint. rewrite DecimalPos.Unsigned.of_to. reflexivity.
Qed.

Lemma digit_is_numeral c : Py.is_digit c = true -> numeral_char c = true.
Proof. unfold numeral_char. intros ->. reflexivity. Qed.

Lemma str_numeral n c : In c (chars (Py.str n)) -> numeral_char c = true.
Proof.
  unfold Py.str.
  assert (Hd : forall d c, In c (chars (NilZero.string_of_uint d)) ->
                           Py.is_digit c = true).
  { intros d c0. destruct d;
      try (apply all_digits_chars, string_of_uint_digits).
    simpl. intros [<-|[]]. reflexivity. }
  destruct (Z.to_int n) as [d|d]; cbn [NilZero.string_of_int].
  - intros H. apply digit_is_numeral, (Hd d), H.
  - intros [<-|H]; [reflexivity|]. apply digit_is_numeral, (Hd d), H.
Qed.

Lemma str_nonempty n : Py.nonempty (Py.str n) = true.
Proof.
  unfold Py.str. destruct (Z.to_int n) as [d|d]; cbn [NilZero.string_of_int];
    [|reflexivity].
  destruct d; reflexivity.
Qed.

(** ** Strings *)

Local Open Scope string_scope.

Lemma append_cons x (a b : string) : String x a ++ b = String x (a ++ b).
Proof. reflexivity. Qed.

Lemma append_nil_l (a : string) : "" ++ a = a.
Proof. reflexivity. Qed.

Lemma append_assoc (a b c : string) : (a ++ b) ++ c = a ++ (b ++ c).
Proof.
  induction a as [|x a IH]; [reflexivity|].
  rewrite !append_cons, IH. reflexivity.
Qed.

Lemma has_char_cons c a s :
  Py.has_char c (String a s) = Ascii.eqb c a || Py.has_char c s.
Proof.
  unfold Py.has_char. simpl. destruct (ascii_dec c a) as [->|Hne].
  - rewrite Ascii.eqb_refl. destruct s; reflexivity.
  - apply Ascii.eqb_neq in Hne. rewrite Hne. reflexivity.
Qed.

Lemma has_char_nil c : Py.has_char c "" = false.
Proof. reflexivity. Qed.

Lemma has_char_app c a b :
  Py.has_char c (a ++ b) = Py.has_char c a || Py.has_char c b.
Proof.
  induction a as [|x a IH]; [reflexivity|].
  rewrite ?append_cons. rewrite !has_char_cons, IH, orb_assoc. reflexivity.
Qed.

Lemma has_char_In c s : Py.has_char c s = true -> In c (chars s).
Proof.
  induction s as [|a s IH]; [discriminate|].
  rewrite has_char_cons. intros H. apply orb_true_iff in H.
  destruct H as [H|H]; [left; apply Ascii.eqb_eq in H; congruence | right; auto].
Qed.

Lemma absent_char c s :
  (forall x, In x (chars s) -> Ascii.eqb c x = false) -> Py.has_char c s = false.
Proof.
  intros H. destruct (Py.has_char c s) eqn:E; [|reflexivity].
  apply has_char_In in E. apply H in E. rewrite Ascii.eqb_refl in E. discriminate.
Qed.

Lemma split_on_none sep s : Py.has_char sep s = false -> Py.split_on sep s = [s].
Proof.
  induction s as [|a s IH]; [reflexivity|].
  rewrite has_char_cons. intros H. apply orb_false_iff in H. destruct H as [Ha Hs].
  simpl. rewrite Ascii.eqb_sym, Ha, (IH Hs). reflexivity.
Qed.

Lemma split_on_app sep a b :
  Py.has_char sep a = false ->
  Py.split_on sep (a ++ String sep b) = a :: Py.split_on sep b.
Proof.
  induction a as [|x a IH]; rewrite ?append_cons.
  - intros _. simpl. rewrite Ascii.eqb_refl. reflexivity.
  - rewrite has_char_cons. intros H. apply orb_false_iff in H.
    destruct H as [Hx Ha]. simpl. rewrite Ascii.eqb_sym, Hx, (IH Ha).
    reflexivity.
Qed.

Lemma readlines_app body rest :
  Py.has_char "010" body = false ->
  Py.readlines (body ++ String "010" rest)
  = (body ++ String "010" "") :: Py.readlines rest.
Proof.
  induction body as [|x body IH]; rewrite ?append_cons.
  - intros _. reflexivity.
  - rewrite has_char_cons. intros H. apply orb_false_iff in H.
    destruct H as [Hx Hb]. simpl. rewrite Ascii.eqb_sym, Hx, (IH Hb).
    reflexivity.
Qed.

Lemma rstrip_by_app sp s t :
  Py.rstrip_by sp (s ++ t)
  = match Py.rstrip_by sp t with
    | "" => Py.rstrip_by sp s
    | r => s ++ r
    end.
Proof.
  induction s as [|x s IH].
  - rewrite append_nil_l. destruct (Py.rstrip_by sp t); reflexivity.
  - rewrite append_cons. simpl. rewrite IH.
    destruct (Py.rstrip_by sp t) as [|y r]; [reflexivity|].
    destruct s; reflexivity.
Qed.

Lemma numeral_not_space c : numeral_char c = true -> Py.is_space c = false.
Proof. destruct c as [[] [] [] [] [] [] [] []]; vm_compute; congruence. Qed.

Lemma numeral_not_sep c :
  numeral_char c = true ->
  Ascii.eqb ":" c = false /\ Ascii.eqb "," c = false /\ Ascii.eqb "010" c = false.
Proof. destruct c as [[] [] [] [] [] [] [] []]; vm_compute; intuition congruence. Qed.

Lemma str_has_no_sep n :
  Py.has_char ":" (Py.str n) = false /\ Py.has_char "," (Py.str n) = false
  /\ Py.has_char "010" (Py.str n) = false.
Proof.
  repeat split; apply absent_char; intros x Hx;
    apply (numeral_not_sep x (str_numeral n x Hx)).
Qed.

Lemma str_rstrip n : Py.rstrip_by Py.is_space (Py.str n) = Py.str n.
Proof.
  apply rstrip_by_fixed. intros c Hc. apply numeral_not_space.
  eapply str_numeral; eauto.
Qed.

(** ** The cache *)

Lemma cache_line_shape k x y :
  Polling.cache_line (k, (x, y))
  = k ++ String ":" (Py.str x ++ String "," (Py.str y ++ String "010" "")).
Proof. reflexivity. Qed.

Lemma regroup k sx t :
  (k ++ String ":" (sx ++ String "," "")) ++ t = k ++ String ":" (sx ++ String "," t).
Proof.
  rewrite append_assoc, append_cons, append_assoc, append_cons, append_nil_l.
  reflexivity.
Qed.

Lemma regroup2 k sx sy t :
  (k ++ String ":" (sx ++ String "," sy)) ++ t
  = k ++ String ":" (sx ++ String "," (sy ++ t)).
Proof.
  rewrite append_assoc, append_cons, append_assoc, append_cons. reflexivity.
Qed.

Lemma plain_key_spec k :
  plain_key k = true ->
  Py.has_char ":" k = false /\ Py.has_char "010" k = false
  /\ forall s, Py.lstrip_by Py.is_space (k ++ String ":" s) = k ++ String ":" s.
Proof.
  unfold plain_key. intros H. apply andb_true_iff in H. destruct H as [H H3].
  apply andb_true_iff in H. destruct H as [H1 H2].
  apply negb_true_iff in H1, H2. repeat split; auto.
  intros s. destruct k as [|c k]; [reflexivity|].
  rewrite append_cons. apply lstrip_by_fixed. apply negb_true_iff in H3. exact H3.
Qed.

Lemma cache_line_strip k x y :
  plain_key k = true ->
  Py.strip (Polling.cache_line (k, (x, y)))
  = k ++ String ":" (Py.str x ++ String "," (Py.str y)).
Proof.
  intros Hk. destruct (plain_key_spec k Hk) as (_ & _ & Hl).
  rewrite cache_line_shape. unfold Py.strip, Py.strip_by. rewrite Hl.
  rewrite <- regroup, rstrip_by_app, rstrip_by_app. simpl (Py.rstrip_by _ (String "010" "")).
  rewrite str_rstrip. pose proof (str_nonempty y) as Hy.
  destruct (Py.str y) as [|c sy]; [discriminate Hy|].
  apply regroup.
Qed.

Lemma load_line_cache_line k x y acc :
  plain_key k = true ->
  Polling.load_line acc (Polling.cache_line (k, (x, y))) = Ok (Dict.set k (x, y) acc)
  /\ V2.load_line acc (Polling.cache_line (k, (x, y))) = Ok (Dict.set k (x, y) acc).
Proof.
  intros Hk. destruct (plain_key_spec k Hk) as (Hc & _ & _).
  destruct (str_has_no_sep x) as (Hx1 & Hx2 & _).
  destruct (str_has_no_sep y) as (Hy1 & Hy2 & _).
  assert (Hsplit : Py.split_on ":" (Py.strip (Polling.cache_line (k, (x, y))))
                   = [k; Py.str x ++ String "," (Py.str y)]).
  { rewrite (cache_line_strip k x y Hk), (split_on_app ":" k _ Hc).
    rewrite split_on_none; [reflexivity|].
    rewrite has_char_app, has_char_cons, Hx1, Hy1. reflexivity. }
  assert (Hval : Py.split_on "," (Py.str x ++ String "," (Py.str y))
                 = [Py.str x; Py.str y]).
  { rewrite (split_on_app "," _ _ Hx2), (split_on_none _ _ Hy2). reflexivity. }
  assert (Hhas : Py.has_char ":" (Polling.cache_line (k, (x, y))) = true).
  { rewrite cache_line_shape, has_char_app, has_char_cons. simpl.
    apply orb_true_r. }
  unfold Polling.load_line, V2.load_line.
  rewrite Hhas, Hsplit, Hval, !int_str. split; reflexivity.
Qed.

Lemma readlines_cache_text c :
  forallb plain_key (Dict.keys c) = true ->
  Py.readlines (Polling.cache_text c) = List.map Polling.cache_line c.
Proof.
  induction c as [|[k [x y]] c IH]; [reflexivity|].
  simpl. intros H. apply andb_true_iff in H. destruct H as [Hk Hc].
  destruct (plain_key_spec k Hk) as (_ & Hn & _).
  destruct (str_has_no_sep x) as (_ & _ & Hx).
  destruct (str_has_no_sep y) as (_ & _ & Hy).
  unfold Polling.cache_text in *. simpl.
  rewrite cache_line_shape at 1.
  replace ((k ++ String ":" (Py.str x ++ String "," (Py.str y ++ String "010" "")))
           ++ fold_right append "" (List.map Polling.cache_line c))
    with ((k ++ String ":" (Py.str x ++ String "," (Py.str y)))
          ++ String "010" (fold_right append "" (List.map Polling.cache_line c))).
  - rewrite readlines_app.
    + rewrite (IH Hc). f_equal. rewrite cache_line_shape. apply regroup2.
    + rewrite has_char_app, has_char_cons, has_char_app, has_char_cons, Hn, Hx, Hy.
      reflexivity.
  - rewrite (regroup2 k (Py.str x) (Py.str y)),
            (regroup2 k (Py.str x) (Py.str y ++ String "010" "")).
    rewrite append_assoc, append_cons, append_nil_l. reflexivity.
Qed.

Lemma load_lines_cache c : forall acc,
  forallb plain_key (Dict.keys c) = true ->
  fold_result Polling.load_line (List.map Polling.cache_line c) acc
  = Ok (assign_all c acc)
  /\ fold_result V2.load_line (List.map Polling.cache_line c) acc
     = Ok (assign_all c acc).
Proof.
  induction c as [|[k [x y]] c IH]; intros acc H; [split; reflexivity|].
  simpl in H. apply andb_true_iff in H. destruct H as [Hk Hc].
  destruct (load_line_cache_line k x y acc Hk) as [H1 H2].
  simpl. rewrite H1, H2. simpl. apply IH, Hc.
Qed.

Lemma assign_all_fresh {V} (kvs : list (string * V)) : forall d,
  NoDup (Dict.keys d ++ Dict.keys kvs) -> assign_all kvs d = (d ++ kvs)%list.
Proof.
  induction kvs as [|[k v] kvs IH]; intros d H; simpl.
  - rewrite app_nil_r. reflexivity.
  - unfold assign_all in *. simpl.
    assert (Hk : ~ In k (Dict.keys d)).
    { intros Hin. simpl in H. apply NoDup_remove_2 in H. apply H.
      apply in_or_app. left. exact Hin. }
    rewrite (dict_set_fresh k v d Hk), IH.
    + rewrite <- app_assoc. reflexivity.
    + unfold Dict.keys in *. rewrite map_app. simpl. rewrite <- app_assoc. exact H.
Qed.





Example cache_text_ex :
  Polling.cache_text [("1", (86, 725)); ("CALL", (360, 1499))]
  = "1:86,725" ++ String "010" ("CALL:360,1499" ++ String "010" "").
Proof. reflexivity. Qed.

(** ** Floating point *)

Local Open Scope Z_scope.

(** Rounding to 53 bits moves a value by at most one part in [2^52]. *)
Lemma round53_spec n :
  0 <= n ->
  0 <= snd (Float.round53 n) /\ 0 <= fst (Float.round53 n)
  /\ (2 ^ 52 - 1) * n
     <= 2 ^ 52 * (fst (Float.round53 n) * 2 ^ snd (Float.round53 n))
     <= (2 ^ 52 + 1) * n.
Proof.
  intros Hn. unfold Float.round53.
  destruct (Z.ltb_spec n (2 ^ 53)) as [Hlt|Hge]; cbn [fst snd].
  - rewrite Z.pow_0_r. lia.
  - assert (Hpos : 0 < n) by lia.
    destruct (Z.log2_spec n Hpos) as [Hlo Hhi].
    assert (HL : 53 <= Z.log2 n).
    { apply Z.log2_le_pow2; lia. }
    set (s := Z.log2 n - 52) in *.
    assert (Hs : 1 <= s) by lia.
    assert (HP : 0 < 2 ^ s) by (apply Z.pow_pos_nonneg; lia).
    assert (Hsplit : 2 ^ Z.log2 n = 2 ^ 52 * 2 ^ s).
    { rewrite <- Z.pow_add_r by lia. f_equal. lia. }
    pose proof (Z.div_mod n (2 ^ s) ltac:(lia)) as Hdm.
    pose proof (Z.mod_pos_bound n (2 ^ s) HP) as Hr.
    assert (Hq : 0 <= n / 2 ^ s) by (apply Z.div_pos; lia).
    set (P := 2 ^ s) in *. set (q := n / P) in *. set (r := n mod P) in *.
    assert (HqP : P * q = n - r) by lia.
    split; [lia|].
    destruct ((2 ^ (s - 1) <? r) || (r =? 2 ^ (s - 1)) && Z.odd q).
    + split; [lia|].
      replace ((q + 1) * P) with (P * q + P) by ring. rewrite HqP. lia.
    + split; [lia|].
      replace (q * P) with (P * q) by ring. rewrite HqP. lia.
Qed.

(** Truncating [m * 2^(a - k)]: the quotient of [m * 2^a] by [2^k]. *)
Lemma trunc_div m a k :
  0 <= a -> 0 <= k ->
  Float.trunc {| Float.mant := m; Float.expo := a - k |} = (m * 2 ^ a) / 2 ^ k.
Proof.
  intros Ha Hk. unfold Float.trunc. cbn [Float.mant Float.expo].
  destruct (Z.leb_spec 0 (a - k)) as [Hge|Hlt].
  - replace (2 ^ a) with (2 ^ (a - k) * 2 ^ k)
      by (rewrite <- Z.pow_add_r by lia; f_equal; lia).
    rewrite Z.mul_assoc, Z.div_mul; [reflexivity|].
    apply Z.pow_nonzero; lia.
  - replace (2 ^ k) with (2 ^ (- (a - k)) * 2 ^ a)
      by (rewrite <- Z.pow_add_r by lia; f_equal; lia).
    rewrite Z.div_mul_cancel_r; [reflexivity| |]; apply Z.pow_nonzero; lia.
Qed.

(** [int(h * c)] for a constant [c = mc * 2^-k]: the integer [t] lies
    under a value [x] that is [h * mc] up to two roundings. *)
Lemma int_mul_spec h c :
  0 <= h -> h < 2 ^ 1023 -> 0 <= Float.mant c -> Float.expo c <= 0 ->
  exists t x f,
    Float.int_mul h c = Ok t
    /\ (2 ^ 52 - 1) * h <= 2 ^ 52 * f <= (2 ^ 52 + 1) * h
    /\ (2 ^ 52 - 1) * (f * Float.mant c) <= 2 ^ 52 * x
       <= (2 ^ 52 + 1) * (f * Float.mant c)
    /\ 2 ^ (- Float.expo c) * t <= x < 2 ^ (- Float.expo c) * (t + 1).
Proof.
  intros Hh Hlt Hm He. unfold Float.int_mul, Float.of_int.
  destruct (round53_spec h Hh) as (Hs & Hmh & Hb).
  destruct (Float.round53 h) as [mh sh]. cbn [fst snd] in *.
  assert (Hov : (2 ^ 1024 <=? mh * 2 ^ sh) = false).
  { apply Z.leb_gt. change (2 ^ 1024) with (2 * 2 ^ 1023). lia. }
  rewrite Hov. cbn [rbind]. unfold Float.mul. cbn [Float.mant Float.expo].
  assert (Hprod : 0 <= mh * Float.mant c) by (apply Z.mul_nonneg_nonneg; lia).
  destruct (round53_spec (mh * Float.mant c) Hprod) as (Hsp & Hmp & Hbp).
  destruct (Float.round53 (mh * Float.mant c)) as [mp sp]. cbn [fst snd] in *.
  assert (HS : 0 < 2 ^ sh) by (apply Z.pow_pos_nonneg; lia).
  assert (HK : 0 < 2 ^ (- Float.expo c)) by (apply Z.pow_pos_nonneg; lia).
  exists (mp * 2 ^ (sp + sh) / 2 ^ (- Float.expo c)).
  exists (mp * 2 ^ (sp + sh)). exists (mh * 2 ^ sh).
  split; [|split; [exact Hb|split]].
  - f_equal.
    replace (sp + sh + Float.expo c) with ((sp + sh) - (- Float.expo c)) by lia.
    apply trunc_div; lia.
  - rewrite Z.pow_add_r by lia.
    replace (2 ^ 52 * (mp * (2 ^ sp * 2 ^ sh)))
      with ((2 ^ 52 * (mp * 2 ^ sp)) * 2 ^ sh) by ring.
    replace (mh * 2 ^ sh * Float.mant c) with ((mh * Float.mant c) * 2 ^ sh) by ring.
    rewrite !Z.mul_assoc. split; apply Z.mul_le_mono_nonneg_r; lia.
  - pose proof (Z.div_mod (mp * 2 ^ (sp + sh)) (2 ^ (- Float.expo c)) ltac:(lia)) as Hdm.
    pose proof (Z.mod_pos_bound (mp * 2 ^ (sp + sh)) (2 ^ (- Float.expo c)) HK) as Hr.
    lia.
Qed.
(** ** The fallback grid *)

Local Open Scope list_scope.
Local Open Scope Z_scope.

Ltac float_constant h c :=
  let t := fresh "t" in let x := fresh "x" in let f := fresh "f" in
  let Et := fresh "Et" in
  intros Hh;
  destruct (int_mul_spec h c ltac:(lia) ltac:(lia)
              ltac:(vm_compute; discriminate) ltac:(vm_compute; discriminate))
    as (t & x & f & Et & H1 & H2 & H3);
  exists t; split; [exact Et|]; clear Et Hh;
  cbn [Float.mant Float.expo Float.c0_12 Float.c0_45 Float.c0_85 Float.c0_88
       Float.c0_93] in *;
  change (- -53) with 53 in *; change (- -54) with 54 in *;
  change (- -56) with 56 in *;
  change (2 ^ 52) with 4503599627370496 in *;
  change (2 ^ 53) with 9007199254740992 in *;
  change (2 ^ 54) with 18014398509481984 in *;
  change (2 ^ 56) with 72057594037927936 in *;
  lia.

(** Each product, within a thousandth of the exact one. *)
Lemma int_mul_0_45 h :
  0 <= h < 2 ^ 1023 ->
  exists t, Float.int_mul h Float.c0_45 = Ok t
            /\ 1000 * t <= 451 * h /\ 449 * h < 1000 * (t + 1).
Proof. float_constant h Float.c0_45. Qed.

Lemma int_mul_0_85 h :
  0 <= h < 2 ^ 1023 ->
  exists t, Float.int_mul h Float.c0_85 = Ok t
            /\ 1000 * t <= 851 * h /\ 849 * h < 1000 * (t + 1).
Proof. float_constant h Float.c0_85. Qed.

Lemma int_mul_0_12 h :
  0 <= h < 2 ^ 1023 ->
  exists t, Float.int_mul h Float.c0_12 = Ok t
            /\ 1000 * t <= 121 * h /\ 119 * h < 1000 * (t + 1).
Proof. float_constant h Float.c0_12. Qed.

Lemma int_mul_0_88 h :
  0 <= h < 2 ^ 1023 ->
  exists t, Float.int_mul h Float.c0_88 = Ok t
            /\ 1000 * t <= 881 * h /\ 879 * h < 1000 * (t + 1).
Proof. float_constant h Float.c0_88. Qed.

Lemma int_mul_0_93 h :
  0 <= h < 2 ^ 1023 ->
  exists t, Float.int_mul h Float.c0_93 = Ok t
            /\ 1000 * t <= 931 * h /\ 929 * h < 1000 * (t + 1).
Proof. float_constant h Float.c0_93. Qed.

Lemma grid_numbers w h :
  0 <= w < 2 ^ 1023 -> 0 <= h < 2 ^ 1023 ->
  exists top bottom left right cy,
    Float.int_mul h Float.c0_45 = Ok top
    /\ Float.int_mul h Float.c0_85 = Ok bottom
    /\ Float.int_mul w Float.c0_12 = Ok left
    /\ Float.int_mul w Float.c0_88 = Ok right
    /\ Float.int_mul h Float.c0_93 = Ok cy
    /\ 0 <= top <= bottom /\ bottom <= cy <= h
    /\ 0 <= left <= w / 2 /\ w / 2 <= right <= w
    /\ (3 <= w -> left < w / 2 < right)
    /\ (10 <= h -> top + 4 <= bottom).
Proof.
  intros Hw Hh.
  destruct (int_mul_0_45 h Hh) as (top & Et & Ht).
  destruct (int_mul_0_85 h Hh) as (bot & Eb & Hb).
  destruct (int_mul_0_12 w Hw) as (lft & El & Hl).
  destruct (int_mul_0_88 w Hw) as (rgt & Er & Hr).
  destruct (int_mul_0_93 h Hh) as (cy & Ec & Hc).
  exists top. exists bot. exists lft. exists rgt. exists cy.
  repeat (split; [assumption|]).
  clear Et Eb El Er Ec.
  assert (Hw2 := Z.div_mod w 2 ltac:(lia)).
  assert (Hw3 := Z.mod_pos_bound w 2 ltac:(lia)).
  assert (0 <= w) by lia. assert (0 <= h) by lia.
  destruct Hw as [_ _]. destruct Hh as [_ _].
  repeat split; try lia.
Qed.
Lemma grid_of_size_shape w h top bottom left right cy :
  Float.int_mul h Float.c0_45 = Ok top ->
  Float.int_mul h Float.c0_85 = Ok bottom ->
  Float.int_mul w Float.c0_12 = Ok left ->
  Float.int_mul w Float.c0_88 = Ok right ->
  Float.int_mul h Float.c0_93 = Ok cy ->
  Polling.grid_of_size w h
  = Ok (grid_map [left; w / 2; right] (grid_rows top bottom) (w / 2, cy)).
Proof.
  intros Et Eb El Er Ec. unfold Polling.grid_of_size.
  rewrite Et, Eb, El, Er. cbn [rbind]. rewrite Ec. reflexivity.
Qed.

Lemma grid_rows_spec top bottom :
  top <= bottom ->
  exists r0 r1 r2 r3,
    grid_rows top bottom = [r0; r1; r2; r3]
    /\ top <= r0 /\ r0 <= r1 /\ r1 <= r2 /\ r2 <= r3 /\ r3 <= bottom
    /\ (top + 4 <= bottom -> r0 < r1 /\ r1 < r2 /\ r2 < r3 /\ r3 < bottom).
Proof.
  intros H. unfold grid_rows. simpl List.map.
  eexists. eexists. eexists. eexists. split; [reflexivity|].
  assert (H0 := Z.div_mod ((bottom - top) * 0) 4 ltac:(lia)).
  assert (H0' := Z.mod_pos_bound ((bottom - top) * 0) 4 ltac:(lia)).
  assert (H1 := Z.div_mod ((bottom - top) * 1) 4 ltac:(lia)).
  assert (H1' := Z.mod_pos_bound ((bottom - top) * 1) 4 ltac:(lia)).
  assert (H2 := Z.div_mod ((bottom - top) * 2) 4 ltac:(lia)).
  assert (H2' := Z.mod_pos_bound ((bottom - top) * 2) 4 ltac:(lia)).
  assert (H3 := Z.div_mod ((bottom - top) * 3) 4 ltac:(lia)).
  assert (H3' := Z.mod_pos_bound ((bottom - top) * 3) 4 ltac:(lia)).
  repeat split; lia.
Qed.
Lemma match_size_digits s a b :
  Py.match_size s = Some (a, b) ->
  all_digits a = true /\ Py.nonempty a = true
  /\ all_digits b = true /\ Py.nonempty b = true.
Proof.
  unfold Py.match_size.
  pose proof (span_digits_spec s) as [Ha _].
  destruct (Py.span_digits s) as [a' r]. cbn [fst] in Ha.
  destruct (Py.nonempty a') eqn:Hna; [|discriminate].
  destruct r as [|c r2]; [discriminate|].
  destruct (Ascii.eqb c "x"); [|discriminate].
  pose proof (span_digits_spec r2) as [Hb _].
  destruct (Py.span_digits r2) as [b' r3]. cbn [fst] in Hb.
  destruct (Py.nonempty b') eqn:Hnb; [|discriminate].
  intros [= <- <-]. auto.
Qed.

Lemma search_size_digits s a b :
  Py.search_size s = Some (a, b) ->
  all_digits a = true /\ Py.nonempty a = true
  /\ all_digits b = true /\ Py.nonempty b = true.
Proof.
  induction s as [|c s IH]; simpl.
  - discriminate.
  - destruct (Py.match_size (String c s)) as [[a' b']|] eqn:E; [|exact IH].
    intros [= <- <-]. eapply match_size_digits; eauto.
Qed.

(** The size is always read: what the device reports, or 720x1612. *)
Lemma screen_size_total out :
  exists W H,
    Polling.screen_size out = Ok (W, H) /\ 0 <= W /\ 0 <= H
    /\ (Py.search_size out = None -> W = 720 /\ H = 1612).
Proof.
  unfold Polling.screen_size.
  destruct (Py.search_size out) as [[a b]|] eqn:E.
  - destruct (search_size_digits out a b E) as (Ha & Na & Hb & Nb).
    destruct (int_of_digits a Ha Na) as (W & -> & HW).
    destruct (int_of_digits b Hb Nb) as (H & -> & HH).
    exists W. exists H. simpl. repeat split; auto; discriminate.
  - exists 720. exists 1612. repeat split; auto; lia.
Qed.

Lemma grid_map_values c0 c1 c2 r0 r1 r2 r3 p :
  Dict.values (grid_map [c0; c1; c2] [r0; r1; r2; r3] p)
  = [(c0, r0); (c1, r0); (c2, r0); (c0, r1); (c1, r1); (c2, r1);
     (c0, r2); (c1, r2); (c2, r2); (c0, r3); (c1, r3); (c2, r3); p].
Proof. reflexivity. Qed.

Lemma grid_points_distinct c0 c1 c2 r0 r1 r2 r3 cy :
  c0 < c1 < c2 -> r0 < r1 -> r1 < r2 -> r2 < r3 -> r3 < cy ->
  NoDup [(c0, r0); (c1, r0); (c2, r0); (c0, r1); (c1, r1); (c2, r1);
         (c0, r2); (c1, r2); (c2, r2); (c0, r3); (c1, r3); (c2, r3); (c1, cy)].
Proof.
  intros Hc H01 H12 H23 H3c.
  repeat (apply NoDup_cons;
          [simpl; intros Hin;
           repeat (destruct Hin as [Hin|Hin]; [injection Hin; lia|]);
           exact Hin|]).
  apply NoDup_nil.
Qed.

(** C3, as the code has it: when the size query answers, and the reported
    width and height are below 2^1023, the fallback grid is the thirteen
    keys in place, '1'..'9','*','0','#' row by row over three columns and
    four rows and CALL at (W/2, int(0.93 H)), with every point on the
    screen; the points are pairwise distinct when the screen is at least
    3 wide and 10 high.  The size is the one the device reports, or
    720x1612 when the answer holds none. *)
Theorem fallback_grid_layout (device : string) (w : world) (out : string)
    (W H : Z)
    (Hout : adb_reply w (clock w) = Ok out)
    (Hsize : Polling.screen_size out = Ok (W, H))
    (HW : W < 2 ^ 1023) (HH : H < 2 ^ 1023) :
  exists c,
    Polling.fallback_grid device w
    = (Ok c, advance (log (Adb (Some device) WmSize true) w))
    /\ (exists cols rows cy,
          List.length cols = 3%nat /\ List.length rows = 4%nat
          /\ Float.int_mul H Float.c0_93 = Ok cy
          /\ c = grid_map cols rows (W / 2, cy))
    /\ Forall (in_screen W H) (Dict.values c)
    /\ (3 <= W -> 10 <= H -> NoDup (Dict.values c))
    /\ (Py.search_size out = None -> W = 720 /\ H = 1612).
Proof.
  destruct (screen_size_total out) as (W' & H' & Hs & HW0 & HH0 & Hdef).
  rewrite Hsize in Hs. injection Hs as <- <-.
  destruct (grid_numbers W H ltac:(lia) ltac:(lia))
    as (top & bot & lft & rgt & cy & Et & Eb & El & Er & Ec
        & Htb & Hbc & Hl & Hr & Hcols & Hrows).
  destruct (grid_rows_spec top bot ltac:(lia))
    as (r0 & r1 & r2 & r3 & Erows & Hr0 & Hr1 & Hr2 & Hr3 & Hr4 & Hstrict).
  exists (grid_map [lft; W / 2; rgt] (grid_rows top bot) (W / 2, cy)).
  split; [|split; [|split; [|split]]].
  - unfold Polling.fallback_grid, bind, adb_call, lift. rewrite Hout.
    cbn [fst snd]. rewrite Hsize. cbn [fst snd].
    rewrite (grid_of_size_shape W H top bot lft rgt cy Et Eb El Er Ec).
    reflexivity.
  - exists [lft; W / 2; rgt]. exists (grid_rows top bot). exists cy.
    rewrite Erows. auto.
  - rewrite Erows, grid_map_values.
    repeat (apply Forall_cons; [unfold in_screen; cbn [fst snd]; lia|]).
    apply Forall_nil.
  - intros H3 H10. rewrite Erows, grid_map_values.
    apply grid_points_distinct; try lia.
  - exact Hdef.
Qed.

Lemma fallback_grid_layout_witness :
  exists c,
    Polling.fallback_grid "emulator-5554" (world_saying "Physical size: 720x1612")
    = (Ok c, advance (log (Adb (Some "emulator-5554") WmSize true)
                          (world_saying "Physical size: 720x1612")))
    /\ NoDup (Dict.values c).
Proof.
  destruct (fallback_grid_layout "emulator-5554"
              (world_saying "Physical size: 720x1612")
              "Physical size: 720x1612" 720 1612 eq_refl eq_refl
              ltac:(reflexivity) ltac:(reflexivity))
    as (c & Hrun & _ & _ & Hnd & _).
  exists c. split; [exact Hrun|]. apply Hnd; lia.
Defined.

(** C3 as stated fails on a screen reported as 1x1: the keys of the grid
    all fall on the point (0,0). *)
Lemma fallback_grid_not_distinct : ~ grid_claim_at "Physical size: 1x1".
Proof.
  intros (c & w' & W & H & Hrun & _ & _ & Hnd & _).
  vm_compute in Hrun. injection Hrun as <- _.
  simpl in Hnd. inversion Hnd as [|p l Hin _]. apply Hin. left. reflexivity.
Qed.
(** ** The resolver *)

Lemma parse_coords_returns x : exists m, Polling.parse_coords_from_ui x = Ok m.
Proof.
  destruct x as [raw|root]; unfold Polling.parse_coords_from_ui; simpl; [eauto|].
  apply polling_parse_nodes_total.
Qed.

Lemma dump_ui_returns device w :
  exists xml w', Polling.dump_ui device w = (Ok xml, w').
Proof.
  unfold Polling.dump_ui, try_catch.
  match goal with |- context [match ?c w with _ => _ end] => destruct (c w) as [[x|e] w'] end.
  - eauto.
  - unfold bind. rewrite print_run. cbn. eauto.
Qed.

Lemma snapshot_keys_run (xml : option ET.text) (w : world) :
  match xml with
  | Some x =>
      if ET.truthy x then lift (Polling.parse_coords_from_ui x) else ret []
  | None => ret []
  end w = (Ok (snapshot_keys xml), w).
Proof.
  unfold snapshot_keys. destruct xml as [x|]; [|reflexivity].
  destruct (ET.truthy x); [|reflexivity].
  destruct (parse_coords_returns x) as [m Hm].
  unfold lift. rewrite Hm. reflexivity.
Qed.

Lemma second_pass_idle xml c :
  Dict.mem "CALL" c = true -> Polling.second_pass xml c = c.
Proof. intros H. unfold Polling.second_pass. rewrite H. reflexivity. Qed.

Lemma prepare_after_dump device w w1 xml :
  match global_coords w with Some c => Polling.dict_truthy c | None => false end
  = false ->
  Polling.dump_ui device w = (Ok xml, w1) ->
  Polling.prepare_coords_for_device device w
  = bind
      (if (Polling.dial_key_count (snapshot_keys xml) <? 10)%nat
          || negb (Dict.mem "CALL" (snapshot_keys xml))
       then bind (print (MsgParseIncomplete device
                           (List.length (snapshot_keys xml))))
                 (fun _ => Polling.fallback_grid device)
       else ret (Polling.second_pass xml (snapshot_keys xml)))
      (fun c => fun w' => (Ok c, published device c w')) w1.
Proof.
  intros Hg Hd. unfold Polling.prepare_coords_for_device.
  unfold bind at 1. unfold gets at 1. cbv beta iota. rewrite Hg.
  unfold bind at 1. rewrite Hd.
  unfold bind at 1. rewrite snapshot_keys_run.
  reflexivity.
Qed.




(** C2 on the code: on a complete dial pad whose call button says "Dial",
    the resolver does not search for the button.  It discards the parsed
    map and returns the fallback grid; the search of lines 240 to 255,
    had it run, would have put CALL at the centre of the button. *)
Theorem call_search_never_runs :
  let w := world_showing full_pad_dump "Physical size: 720x1612" in
  exists parsed c w',
    Polling.parse_coords_from_ui (ET.Document full_pad_dump) = Ok parsed
    /\ Polling.dial_key_count parsed = 12%nat /\ Dict.mem "CALL" parsed = false
    /\ Dict.get "CALL"
         (Polling.second_pass (Some (ET.Document full_pad_dump)) parsed)
       = Some (360, 1480)
    /\ Polling.prepare_coords_for_device "emulator-5554" w = (Ok c, w')
    /\ Polling.grid_of_size 720 1612 = Ok c
    /\ Dict.get "CALL" c = Some (360, 1499)
    /\ Dict.get "1" parsed = Some (120, 875)
    /\ Dict.get "1" c = Some (86, 725).
Proof.
  intros w. eexists. eexists. eexists.
  split; [vm_compute; reflexivity|].
  repeat split; vm_compute; reflexivity.
Qed.


(** ** The launcher: sessions *)

Ltac m10_step :=
  match goal with
  | |- context [match M10.adb_reply ?w ?n with _ => _ end] =>
      destruct (M10.adb_reply w n);
      cbn -[Py.contains Py.strip Py.nonempty M10.APP_PACKAGE launch_count]
  | |- context [Py.contains ?a ?b] =>
      destruct (Py.contains a b);
      cbn -[Py.contains Py.strip Py.nonempty M10.APP_PACKAGE launch_count]
  | |- context [Py.nonempty ?a] =>
      destruct (Py.nonempty a);
      cbn -[Py.contains Py.strip Py.nonempty M10.APP_PACKAGE launch_count]
  end.

Ltac m10_paths :=
  unfold M10.wake_and_unlock, M10.is_screen_on, M10.launch_and_verify,
    M10.is_app_running, M10.check_foreground, M10.launch_app, bind, ret, M10.adb;
  cbn -[Py.contains Py.strip Py.nonempty M10.APP_PACKAGE launch_count];
  repeat m10_step.

Lemma launch_count_app l1 l2 :
  launch_count (l1 ++ l2) = (launch_count l1 + launch_count l2)%nat.
Proof. unfold launch_count. rewrite filter_app, length_app. reflexivity. Qed.

Lemma wake_and_unlock_frame device w :
  m10_frame w (snd (M10.wake_and_unlock device w))
  /\ launch_count (M10.trace (snd (M10.wake_and_unlock device w)))
     = launch_count (M10.trace w).
Proof.
  m10_paths; (split; [repeat split|]);
    rewrite ?launch_count_app; cbn; lia.
Qed.

Lemma launch_and_verify_frame device w :
  m10_frame w (snd (M10.launch_and_verify device w))
  /\ (launch_count (M10.trace (snd (M10.launch_and_verify device w)))
      <= launch_count (M10.trace w) + 2)%nat
  /\ match fst (M10.launch_and_verify device w) with
     | Ok s => In s statuses
     | Raise _ => True
     end.
Proof.
  m10_paths; (split; [repeat split|split]);
    rewrite ?launch_count_app; cbn; try lia; auto 10.
Qed.
Ltac m10_session_paths :=
  unfold M10.session, M10.time, M10.log_to_csv, modify; m10_paths.






Lemma enter_cases device w :
  (exists s,
      M10.processed_sessions w !! device = Some s
      /\ M10.time_reply w (S (M10.reads w)) - s < M10.seconds M10.RECHECK_INTERVAL
      /\ M10.enter device w = (Ok None, M10.set_reads (S (S (M10.reads w))) w))
  \/ (exists w',
        M10.enter device w = (Ok (Some (M10.time_reply w (M10.reads w))), w')
        /\ M10.csv w' = M10.csv w /\ M10.trace w' = M10.trace w
        /\ M10.adb_reply w' = M10.adb_reply w /\ M10.calls w' = M10.calls w
        /\ (exists t, M10.processed_sessions w'
                      = <[device := t]> (M10.processed_sessions w))
        /\ match M10.processed_sessions w !! device with
           | Some s => M10.seconds M10.RECHECK_INTERVAL
                       <= M10.time_reply w (S (M10.reads w)) - s
           | None => True
           end).
Proof.
  unfold M10.enter, bind, gets, M10.time, modify, ret.
  cbn -[M10.seconds M10.RECHECK_INTERVAL].
  destruct (M10.processed_sessions w !! device) as [s|] eqn:E;
    cbn -[M10.seconds M10.RECHECK_INTERVAL].
  - destruct (Z.ltb_spec (M10.time_reply w (S (M10.reads w)) - s)
                (M10.seconds M10.RECHECK_INTERVAL)) as [Hlt|Hge];
      cbn -[M10.seconds M10.RECHECK_INTERVAL].
    + left. exists s. auto.
    + right. eexists. split; [reflexivity|]. cbn. repeat split; eauto.
  - right. eexists. split; [reflexivity|]. cbn. repeat split; eauto.
Qed.


Ltac m10_cbn :=
  cbn -[Py.contains Py.strip Py.nonempty M10.APP_PACKAGE launch_count].


(** ** The launcher: cooldown *)

Lemma forget_all_lookup (gone : list string) (m : gmap string Z) d :
  ~ In d gone -> M10.forget_all gone m !! d = m !! d.
Proof.
  induction gone as [|g gone IH]; simpl; intros H; [reflexivity|].
  rewrite lookup_delete_ne by (intros ->; apply H; left; reflexivity).
  apply IH. intros Hin. apply H. right. exact Hin.
Qed.

Lemma observe_all_keeps t devices : forall w,
  exists l w',
    M10.observe_all t devices w = (Ok l, w')
    /\ M10.processed_sessions w' = M10.processed_sessions w
    /\ M10.time_reply w' = M10.time_reply w
    /\ M10.devices_reply w' = M10.devices_reply w.
Proof.
  induction devices as [|d devices IH]; intros w; simpl.
  - exists []. exists w. auto.
  - unfold bind at 1. unfold M10.observe, bind, gets, modify, ret.
    cbn -[M10.seconds].
    destruct (match M10.device_last_seen w !! d with
              | Some s => M10.seconds 5 <? t - s
              | None => true
              end); cbn -[M10.seconds].
    + destruct (IH (M10.set_device_last_seen
                      (<[d:=t]> (M10.device_last_seen w)) w))
        as (l & w' & -> & H1 & H2 & H3).
      eexists. eexists. split; [reflexivity|]. auto.
    + destruct (IH w) as (l & w' & -> & H1 & H2 & H3).
      eexists. eexists. split; [reflexivity|]. auto.
Qed.

Lemma poll_once_run w out :
  M10.devices_reply w (M10.polls w) = Ok out ->
  exists l w1,
    M10.poll_once w
    = (Ok l,
       M10.set_processed_sessions
         (M10.forget_all
            (filter (fun d0 => negb (bool_decide (d0 ∈ M10.attached out)))
               (List.map fst (map_to_list (M10.device_last_seen w1))))
            (M10.processed_sessions w1))
         (M10.set_device_last_seen
            (M10.forget_all
               (filter (fun d0 => negb (bool_decide (d0 ∈ M10.attached out)))
                  (List.map fst (map_to_list (M10.device_last_seen w1))))
               (M10.device_last_seen w1)) w1))
    /\ M10.processed_sessions w1 = M10.processed_sessions w
    /\ M10.time_reply w1 = M10.time_reply w
    /\ M10.devices_reply w1 = M10.devices_reply w.
Proof.
  intros E.
  destruct (observe_all_keeps
              (M10.time_reply w (M10.reads w)) (M10.attached out)
              (M10.set_reads (S (M10.reads w))
                 (M10.set_polls (S (M10.polls w)) w)))
    as (l & w1 & Hobs & H1 & H2 & H3).
  exists l. exists w1. split; [|auto].
  unfold M10.poll_once, bind, M10.time, M10.clean_disconnected, modify, ret.
  rewrite E. cbn [M10.time_reply M10.reads M10.set_polls].
  rewrite Hobs. reflexivity.
Qed.

(** A turn of the polling loop keeps the record of a handle that is
    still attached. *)
Lemma poll_once_keeps d w :
  (forall out, M10.devices_reply w (M10.polls w) = Ok out ->
               In d (M10.attached out)) ->
  M10.processed_sessions (snd (M10.poll_once w)) !! d
  = M10.processed_sessions w !! d
  /\ M10.time_reply (snd (M10.poll_once w)) = M10.time_reply w
  /\ M10.devices_reply (snd (M10.poll_once w)) = M10.devices_reply w.
Proof.
  intros Hatt.
  destruct (M10.devices_reply w (M10.polls w)) as [out|e] eqn:E.
  - destruct (poll_once_run w out E) as (l & w1 & -> & H1 & H2 & H3).
    cbn [snd M10.processed_sessions M10.time_reply M10.devices_reply
         M10.set_processed_sessions M10.set_device_last_seen].
    split; [|auto].
    rewrite forget_all_lookup; [rewrite H1; reflexivity|].
    intros Hin. apply filter_In in Hin.
    destruct Hin as [_ Hno]. apply negb_true_iff in Hno.
    apply bool_decide_eq_false in Hno. apply Hno.
    apply list_elem_of_In. exact (Hatt out eq_refl).
  - unfold M10.poll_once, bind. rewrite E. cbn. auto.
Qed.

Lemma session_keeps device t0 w :
  M10.processed_sessions (snd (M10.session device t0 w))
  = M10.processed_sessions w
  /\ M10.time_reply (snd (M10.session device t0 w)) = M10.time_reply w
  /\ M10.devices_reply (snd (M10.session device t0 w)) = M10.devices_reply w.
Proof. m10_session_paths; repeat split; reflexivity. Qed.

Lemma enter_keeps device w :
  M10.time_reply (snd (M10.enter device w)) = M10.time_reply w
  /\ M10.devices_reply (snd (M10.enter device w)) = M10.devices_reply w
  /\ forall d, d <> device ->
       M10.processed_sessions (snd (M10.enter device w)) !! d
       = M10.processed_sessions w !! d.
Proof.
  unfold M10.enter, bind, gets, M10.time, modify, ret.
  cbn -[M10.seconds M10.RECHECK_INTERVAL].
  destruct (M10.processed_sessions w !! device) as [s|];
    cbn -[M10.seconds M10.RECHECK_INTERVAL];
    [destruct (_ <? _); cbn -[M10.seconds M10.RECHECK_INTERVAL]|];
    repeat split; auto; intros d Hd; apply lookup_insert_ne; congruence.
Qed.

(** Within the cooldown a call of [process_device] returns at once. *)
Lemma enter_cooling device w s :
  M10.processed_sessions w !! device = Some s ->
  M10.time_reply w (S (M10.reads w)) - s < M10.seconds M10.RECHECK_INTERVAL ->
  M10.enter device w = (Ok None, M10.set_reads (S (S (M10.reads w))) w).
Proof.
  intros Hs Hlt.
  destruct (enter_cases device w) as [(s' & _ & _ & H)|(w' & _ & _ & _ & _ & _ & _ & H)];
    [exact H|].
  rewrite Hs in H. lia.
Qed.

Lemma filter_set_phase (f : string * M10.phase -> bool) i p l d0 p0 :
  l !! i = Some (d0, p0) -> f (d0, p) = f (d0, p0) ->
  List.length (List.filter f (M10.set_phase i p l))
  = List.length (List.filter f l).
Proof.
  intros Hl Hf. unfold M10.set_phase. rewrite Hl.
  revert i Hl. induction l as [|x l IH]; intros i Hl; [discriminate|].
  destruct i as [|i]; simpl in *.
  - injection Hl as ->. rewrite Hf. destruct (f (d0, p0)); reflexivity.
  - destruct (f x); simpl; rewrite (IH i Hl); reflexivity.
Qed.
Lemma spawned_not_begun d l :
  List.filter (M10.has_begun d) (List.map (fun d' => (d', M10.Spawned)) l) = [].
Proof. induction l as [|x l IH]; simpl; auto. Qed.

Lemma has_begun_other d d' p :
  d' <> d -> M10.has_begun d (d', p) = false.
Proof.
  intros H. unfold M10.has_begun.
  destruct p; try reflexivity; apply String.eqb_neq; exact H.
Qed.

Lemma step_cooling d t0 a s :
  M10.processed_sessions (M10.sys_world s) !! d = Some t0 ->
  (forall n, M10.time_reply (M10.sys_world s) n - t0
             < M10.seconds M10.RECHECK_INTERVAL) ->
  (forall n out, M10.devices_reply (M10.sys_world s) n = Ok out ->
                 In d (M10.attached out)) ->
  M10.processed_sessions (M10.sys_world (M10.step a s)) !! d = Some t0
  /\ M10.time_reply (M10.sys_world (M10.step a s))
     = M10.time_reply (M10.sys_world s)
  /\ M10.devices_reply (M10.sys_world (M10.step a s))
     = M10.devices_reply (M10.sys_world s)
  /\ begun_count d (M10.step a s) = begun_count d s.
Proof.
  intros Hlast Hwin Hatt. destruct s as [w pool alive]. cbn [M10.sys_world] in *.
  destruct a as [|i|i]; unfold M10.step; cbn [M10.sys_world M10.pool M10.poller_alive].
  - destruct alive; [|auto].
    destruct (poll_once_keeps d w (Hatt (M10.polls w))) as (H1 & H2 & H3).
    destruct (M10.poll_once w) as [[l|e] w']; cbn [snd M10.sys_world] in *;
      (split; [congruence|]); (split; [assumption|]); (split; [assumption|]);
      [|reflexivity].
    unfold begun_count. cbn [M10.pool].
    rewrite filter_app, spawned_not_begun, app_nil_r. reflexivity.
  - destruct (pool !! i) as [[d' ph]|] eqn:Ei; [|auto].
    destruct ph; auto.
    destruct (String.eqb_spec d' d) as [->|Hne].
    + rewrite (enter_cooling d w t0 Hlast (Hwin _)).
      cbn [M10.sys_world M10.processed_sessions M10.time_reply
           M10.devices_reply M10.set_reads].
      repeat split; auto.
      unfold begun_count. cbn [M10.pool].
      apply (filter_set_phase _ i M10.Skipped pool d M10.Spawned Ei).
      reflexivity.
    + destruct (enter_keeps d' w) as (H1 & H2 & H3).
      specialize (H3 d ltac:(congruence)).
      destruct (M10.enter d' w) as [[[t|]|e] w']; cbn [snd M10.sys_world] in *;
        (split; [congruence|]); (split; [assumption|]); (split; [assumption|]);
        unfold begun_count; cbn [M10.pool];
        apply (filter_set_phase _ i _ pool d' M10.Spawned Ei);
        rewrite !has_begun_other by exact Hne; reflexivity.
  - destruct (pool !! i) as [[d' ph]|] eqn:Ei; [|auto].
    destruct ph as [|t| | |]; auto.
    destruct (session_keeps d' t w) as (H1 & H2 & H3).
    destruct (M10.session d' t w) as [[u|e] w']; cbn [snd M10.sys_world] in *;
      (split; [congruence|]); (split; [assumption|]); (split; [assumption|]);
      unfold begun_count; cbn [M10.pool];
      apply (filter_set_phase _ i _ pool d' (M10.Live t) Ei); reflexivity.
Qed.

(** C6, as the code has it: once a session of a handle has begun at a
    time [t0] (recorded in [processed_sessions]), then as long as every
    clock reading is within [RECHECK_INTERVAL] = 30 s of [t0] and every
    listing shows the handle attached, no schedule of polling turns and
    worker steps begins another session of that handle, and the record
    stays. *)
Theorem cooldown_dedup (s : M10.system) (d : string) (t0 : Z)
    (schedule : list M10.action)
    (Hlast : M10.processed_sessions (M10.sys_world s) !! d = Some t0)
    (Hwindow : forall n, M10.time_reply (M10.sys_world s) n - t0
                         < M10.seconds M10.RECHECK_INTERVAL)
    (Hattached : forall n out,
        M10.devices_reply (M10.sys_world s) n = Ok out ->
        In d (M10.attached out)) :
  begun_count d (M10.run schedule s) = begun_count d s
  /\ M10.processed_sessions (M10.sys_world (M10.run schedule s)) !! d = Some t0.
Proof.
  revert s Hlast Hwindow Hattached.
  induction schedule as [|a schedule IH]; intros s Hlast Hwin Hatt.
  - split; [reflexivity | exact Hlast].
  - destruct (step_cooling d t0 a s Hlast Hwin Hatt) as (H1 & H2 & H3 & H4).
    unfold M10.run. simpl. fold (M10.run schedule (M10.step a s)).
    destruct (IH (M10.step a s) H1) as [H5 H6].
    + intros n. rewrite H2. apply Hwin.
    + intros n out. rewrite H3. apply Hatt.
    + split; [congruence | exact H6].
Qed.

Lemma cooldown_dedup_witness :
  M10.processed_sessions (M10.sys_world cooling_system) !! "emulator-5554"
  = Some 0
  /\ begun_count "emulator-5554"
       (M10.run [M10.Poll; M10.Enter 1; M10.Poll; M10.Finish 0; M10.Poll]
          cooling_system)
     = 1%nat.
Proof.
  assert (H0 : M10.processed_sessions (M10.sys_world cooling_system)
               !! "emulator-5554" = Some 0) by (vm_compute; reflexivity).
  split; [exact H0|].
  assert (Hw : forall n, M10.time_reply (M10.sys_world cooling_system) n - 0
                         < M10.seconds M10.RECHECK_INTERVAL).
  { intros n. destruct n as [|[|[|n]]]; vm_compute; reflexivity. }
  assert (Ha : forall n out,
             M10.devices_reply (M10.sys_world cooling_system) n = Ok out ->
             In "emulator-5554" (M10.attached out)).
  { intros n out H. vm_compute in H. injection H as <-.
    vm_compute. left. reflexivity. }
  rewrite (proj1 (cooldown_dedup cooling_system "emulator-5554" 0
                    [M10.Poll; M10.Enter 1; M10.Poll; M10.Finish 0; M10.Poll]
                    H0 Hw Ha)).
  vm_compute. reflexivity.
Defined.

(** C6 as stated fails: with the loop polling every three seconds and
    the first session still open, the worker started 30 s later passes
    the cooldown test, and the handle has two live sessions. *)
Lemma two_live_sessions :
  M10.live_sessions "emulator-5554" (M10.run hung_schedule hung_start) = 2%nat.
Proof. vm_compute. reflexivity. Qed.
(** * Further properties of the scripts *)

(** ** The launcher: the table of outcomes *)


(** X1: the outcomes of launch and verification that need one launch.
    A running application without the focus is launched once and is
    'Brought to Foreground' if it then has the focus, 'Foreground Failed'
    if not; an application that is not running and has the focus after
    the first launch is 'Launched', without a retry. *)
Theorem single_launch_outcomes (device : string) (w : M10.world)
    (pid r1 f1 : string)
    (Hpid : M10.adb_reply w (M10.calls w) = Ok pid) :
  (forall f0,
      Py.nonempty (Py.strip (Py.strip pid)) = true ->
      M10.adb_reply w (S (M10.calls w)) = Ok f0 ->
      Py.contains M10.APP_PACKAGE (Py.strip f0) = false ->
      M10.adb_reply w (S (S (M10.calls w))) = Ok r1 ->
      M10.adb_reply w (S (S (S (M10.calls w)))) = Ok f1 ->
      exists w',
        M10.launch_and_verify device w
        = (Ok (if Py.contains M10.APP_PACKAGE (Py.strip f1)
               then "Brought to Foreground" else "Foreground Failed"), w')
        /\ M10.trace w'
           = M10.trace w
             ++ [(device, M10.Pidof M10.APP_PACKAGE); (device, M10.WindowFocus);
                 (device, M10.SecretCode "4321"); (device, M10.WindowFocus)]
        /\ launch_count (M10.trace w') = (launch_count (M10.trace w) + 1)%nat)
  /\ (Py.nonempty (Py.strip (Py.strip pid)) = false ->
      M10.adb_reply w (S (M10.calls w)) = Ok r1 ->
      M10.adb_reply w (S (S (M10.calls w))) = Ok f1 ->
      Py.contains M10.APP_PACKAGE (Py.strip f1) = true ->
      exists w',
        M10.launch_and_verify device w = (Ok "Launched", w')
        /\ M10.trace w'
           = M10.trace w
             ++ [(device, M10.Pidof M10.APP_PACKAGE);
                 (device, M10.SecretCode "4321"); (device, M10.WindowFocus)]
        /\ launch_count (M10.trace w') = (launch_count (M10.trace w) + 1)%nat).
Proof.
  split.
  - intros f0 Hrun H1 Hf0 H2 H3.
    unfold M10.launch_and_verify, M10.is_app_running, M10.check_foreground,
      M10.launch_app, bind, ret, M10.adb.
    rewrite Hpid; m10_cbn. rewrite Hrun; m10_cbn. rewrite H1; m10_cbn.
    rewrite Hf0; m10_cbn. rewrite H2; m10_cbn. rewrite H3; m10_cbn.
    destruct (Py.contains M10.APP_PACKAGE (Py.strip f1)); m10_cbn;
      (eexists; split; [reflexivity|]);
      cbn [M10.trace M10.set_calls]; rewrite <- !app_assoc;
      (split; [reflexivity|]); rewrite launch_count_app; cbn; lia.
  - intros Hrun H1 H2 Hf1.
    unfold M10.launch_and_verify, M10.is_app_running, M10.check_foreground,
      M10.launch_app, bind, ret, M10.adb.
    rewrite Hpid; m10_cbn. rewrite Hrun; m10_cbn. rewrite H1; m10_cbn.
    rewrite H2; m10_cbn. rewrite Hf1; m10_cbn.
    eexists. split; [reflexivity|].
    cbn [M10.trace M10.set_calls]. rewrite <- !app_assoc.
    split; [reflexivity|]. rewrite launch_count_app. cbn. lia.
Qed.

Lemma single_launch_outcomes_witness :
  let w := m10_world (fun n => match n with
                               | O => Ok ""
                               | 1%nat => Ok "Broadcast completed: result=0"
                               | _ => Ok "mCurrentFocus=Window{u0 com.sprd.validationtools/com.zyt.agingtest.AgingTest}"
                               end)
                     (fun _ => Ok "") (fun _ => 0) in
  exists w',
    M10.launch_and_verify "emulator-5554" w = (Ok "Launched", w')
    /\ launch_count (M10.trace w') = (launch_count (M10.trace w) + 1)%nat.
Proof.
  intros w.
  destruct (proj2 (single_launch_outcomes "emulator-5554" w ""
              "Broadcast completed: result=0"
              "mCurrentFocus=Window{u0 com.sprd.validationtools/com.zyt.agingtest.AgingTest}"
              eq_refl) eq_refl eq_refl eq_refl eq_refl) as (w' & H1 & _ & H3).
  exists w'. split; assumption.
Defined.



(** ** The launcher: counters and log *)

Lemma session_stats device t0 w :
  match fst (M10.session device t0 w) with
  | Ok _ =>
      exists o,
        M10.csv (snd (M10.session device t0 w)) = M10.csv w ++ [o]
        /\ M10.processed_devices (snd (M10.session device t0 w))
           = M10.processed_devices w + 1
        /\ M10.total_time (snd (M10.session device t0 w))
           = M10.total_time w + M10.o_duration o
  | Raise _ =>
      M10.csv (snd (M10.session device t0 w)) = M10.csv w
      /\ M10.processed_devices (snd (M10.session device t0 w))
         = M10.processed_devices w
      /\ M10.total_time (snd (M10.session device t0 w)) = M10.total_time w
  end.
Proof.
  m10_session_paths; try (repeat split; reflexivity);
    eexists; (split; [reflexivity|]); split; reflexivity.
Qed.

Lemma session_balanced device t0 w :
  m10_balanced w -> m10_balanced (snd (M10.session device t0 w)).
Proof.
  unfold m10_balanced. intros H1.
  pose proof (session_stats device t0 w) as H.
  destruct (fst (M10.session device t0 w)).
  - destruct H as (o & -> & -> & _).
    rewrite length_app. cbn. lia.
  - destruct H as (-> & -> & _). exact H1.
Qed.

Lemma enter_balanced device w :
  m10_balanced w -> m10_balanced (snd (M10.enter device w)).
Proof.
  unfold m10_balanced, M10.enter, bind, gets, M10.time, modify, ret.
  cbn -[M10.seconds M10.RECHECK_INTERVAL].
  destruct (M10.processed_sessions w !! device) as [s|];
    cbn -[M10.seconds M10.RECHECK_INTERVAL];
    [destruct (_ <? _); cbn -[M10.seconds M10.RECHECK_INTERVAL]|]; auto.
Qed.

Lemma observe_all_balanced t devices : forall w,
  m10_balanced w -> m10_balanced (snd (M10.observe_all t devices w)).
Proof.
  induction devices as [|d devices IH]; intros w H; simpl; [exact H|].
  unfold bind at 1. unfold M10.observe, bind, gets, modify, ret.
  cbn -[M10.seconds].
  destruct (match M10.device_last_seen w !! d with
            | Some s => M10.seconds 5 <? t - s
            | None => true
            end); cbn -[M10.seconds].
  - specialize (IH (M10.set_device_last_seen
                      (<[d:=t]> (M10.device_last_seen w)) w) H).
    destruct (M10.observe_all t devices _) as [[l|e] w']; exact IH.
  - specialize (IH w H).
    destruct (M10.observe_all t devices w) as [[l|e] w']; exact IH.
Qed.

Lemma poll_once_balanced w :
  m10_balanced w -> m10_balanced (snd (M10.poll_once w)).
Proof.
  intros H.
  unfold M10.poll_once, bind, M10.time, M10.clean_disconnected, modify, ret.
  destruct (M10.devices_reply w (M10.polls w)) as [out|e]; [|exact H].
  cbn [M10.time_reply M10.reads M10.set_polls].
  pose proof (observe_all_balanced (M10.time_reply w (M10.reads w))
                (M10.attached out)
                (M10.set_reads (S (M10.reads w))
                   (M10.set_polls (S (M10.polls w)) w)) H) as Hb.
  destruct (M10.observe_all _ _ _) as [[l|e] w']; exact Hb.
Qed.

Lemma step_balanced a s :
  m10_balanced (M10.sys_world s) -> m10_balanced (M10.sys_world (M10.step a s)).
Proof.
  intros H. destruct a as [|i|i]; simpl.
  - destruct (M10.poller_alive s); [|exact H].
    pose proof (poll_once_balanced _ H) as Hb.
    destruct (M10.poll_once (M10.sys_world s)) as [[l|e] w']; exact Hb.
  - destruct (M10.pool s !! i) as [[d [| | | |]]|]; try exact H.
    pose proof (enter_balanced d _ H) as Hb.
    destruct (M10.enter d (M10.sys_world s)) as [[[t0|]|e] w']; exact Hb.
  - destruct (M10.pool s !! i) as [[d [|t0| | |]]|]; try exact H.
    pose proof (session_balanced d t0 _ H) as Hb.
    destruct (M10.session d t0 (M10.sys_world s)) as [[u|e] w']; exact Hb.
Qed.

(** X3: between the steps of the workers and of the polling loop, under
    every schedule and whatever the transport and the clock do, the
    counter of processed devices equals the number of rows of the log:
    a session that returns adds one row and counts once, and a session
    that raises adds no row and is not counted. *)
Theorem counter_matches_log (adb_r devices_r : nat -> result string)
    (time_r : nat -> Z) (schedule : list M10.action) :
  let w := M10.sys_world (M10.run schedule (M10.start adb_r devices_r time_r)) in
  M10.processed_devices w = Z.of_nat (List.length (M10.csv w)).
Proof.
  cbv zeta. fold (m10_balanced (M10.sys_world
    (M10.run schedule (M10.start adb_r devices_r time_r)))).
  assert (H0 : m10_balanced (M10.sys_world (M10.start adb_r devices_r time_r)))
    by reflexivity.
  revert H0. generalize (M10.start adb_r devices_r time_r).
  unfold M10.run. induction schedule as [|a schedule IH]; intros s H; simpl.
  - exact H.
  - apply IH. apply step_balanced. exact H.
Qed.

(** ** The launcher: the polling loop *)

Lemma observe_all_seen t devices : forall w l w' d,
  M10.observe_all t devices w = (Ok l, w') ->
  M10.device_last_seen w !! d = Some t ->
  ~ In d l /\ M10.device_last_seen w' !! d = Some t.
Proof.
  induction devices as [|d0 devices IH]; intros w l w' d; simpl.
  - unfold ret. intros [= <- <-] H. split; [intros []|exact H].
  - unfold bind at 1. unfold M10.observe, bind, gets, modify, ret.
    cbn -[M10.seconds].
    intros Hrun Hd.
    destruct (M10.device_last_seen w !! d0) as [s|] eqn:E0.
    + destruct (M10.seconds 5 <? t - s) eqn:Elt; cbn -[M10.seconds] in Hrun.
      * destruct (M10.observe_all t devices _) as [[more|e] w1] eqn:Eo;
          [|discriminate].
        injection Hrun as <- <-.
        assert (d <> d0).
        { intros ->. rewrite Hd in E0. injection E0 as <-.
          rewrite Z.sub_diag in Elt. vm_compute in Elt. discriminate. }
        destruct (IH _ _ _ d Eo) as [Hn Hs].
        { cbn. rewrite lookup_insert_ne by congruence. exact Hd. }
        split; [|exact Hs]. intros [->|Hin]; [congruence|exact (Hn Hin)].
      * destruct (M10.observe_all t devices w) as [[more|e] w1] eqn:Eo;
          [|discriminate].
        injection Hrun as <- <-. exact (IH _ _ _ d Eo Hd).
    + cbn -[M10.seconds] in Hrun.
      destruct (M10.observe_all t devices _) as [[more|e] w1] eqn:Eo;
        [|discriminate].
      injection Hrun as <- <-.
      assert (d <> d0) by (intros ->; congruence).
      destruct (IH _ _ _ d Eo) as [Hn Hs].
      { cbn. rewrite lookup_insert_ne by congruence. exact Hd. }
      split; [|exact Hs]. intros [->|Hin]; [congruence|exact (Hn Hin)].
Qed.

Lemma observe_all_started t devices : forall w l w',
  M10.observe_all t devices w = (Ok l, w') ->
  NoDup l
  /\ (forall d, In d l ->
        In d devices
        /\ M10.device_last_seen w' !! d = Some t
        /\ match M10.device_last_seen w !! d with
           | Some s => M10.seconds 5 < t - s
           | None => True
           end).
Proof.
  induction devices as [|d0 devices IH]; intros w l w'; simpl.
  - unfold ret. intros [= <- <-]. split; [constructor|intros d []].
  - unfold bind at 1. unfold M10.observe, bind, gets, modify, ret.
    cbn -[M10.seconds].
    intros Hrun.
    destruct (match M10.device_last_seen w !! d0 with
              | Some s => M10.seconds 5 <? t - s
              | None => true
              end) eqn:Ec; cbn -[M10.seconds] in Hrun.
    + destruct (M10.observe_all t devices _) as [[more|e] w1] eqn:Eo;
        [|discriminate].
      injection Hrun as <- <-.
      destruct (IH _ _ _ Eo) as [Hnd Hall].
      destruct (observe_all_seen _ _ _ _ _ d0 Eo) as [Hn Hs].
      { cbn. apply lookup_insert_eq. }
      split; [constructor; assumption|].
      intros d [<-|Hin].
      * split; [left; reflexivity|]. split; [exact Hs|].
        destruct (M10.device_last_seen w !! d0); [|exact I].
        apply Z.ltb_lt. exact Ec.
      * destruct (Hall d Hin) as (H1 & H2 & H3).
        split; [right; exact H1|]. split; [exact H2|].
        cbn in H3.
        destruct (String.eqb_spec d d0) as [->|Hne].
        -- destruct (M10.device_last_seen w !! d0); [|exact I].
           apply Z.ltb_lt. exact Ec.
        -- rewrite lookup_insert_ne in H3 by congruence. exact H3.
    + destruct (M10.observe_all t devices w) as [[more|e] w1] eqn:Eo;
        [|discriminate].
      injection Hrun as <- <-.
      destruct (IH _ _ _ Eo) as [Hnd Hall].
      split; [exact Hnd|].
      intros d Hin. destruct (Hall d Hin) as (H1 & H2 & H3).
      split; [right; exact H1|]. split; assumption.
Qed.

Lemma observe_all_known t devices : forall w d,
  is_Some (M10.device_last_seen w !! d) ->
  is_Some (M10.device_last_seen (snd (M10.observe_all t devices w)) !! d).
Proof.
  induction devices as [|d0 devices IH]; intros w d H; simpl; [exact H|].
  unfold bind at 1. unfold M10.observe, bind, gets, modify, ret.
  cbn -[M10.seconds].
  destruct (match M10.device_last_seen w !! d0 with
            | Some s => M10.seconds 5 <? t - s
            | None => true
            end); cbn -[M10.seconds].
  - assert (H' : is_Some (M10.device_last_seen
                            (M10.set_device_last_seen
                               (<[d0:=t]> (M10.device_last_seen w)) w) !! d)).
    { cbn. destruct (String.eqb_spec d d0) as [->|Hne].
      - rewrite lookup_insert_eq. eexists. reflexivity.
      - rewrite lookup_insert_ne by congruence. exact H. }
    specialize (IH _ d H').
    destruct (M10.observe_all t devices _) as [[l|e] w']; exact IH.
  - specialize (IH w d H).
    destruct (M10.observe_all t devices w) as [[l|e] w']; exact IH.
Qed.

Lemma forget_all_gone (gone : list string) (m : gmap string Z) d :
  In d gone -> M10.forget_all gone m !! d = None.
Proof.
  induction gone as [|g gone IH]; simpl; intros H; [destruct H|].
  destruct (String.eqb_spec g d) as [->|Hne].
  - apply lookup_delete_eq.
  - rewrite lookup_delete_ne by congruence.
    apply IH. destruct H as [->|H]; [congruence|exact H].
Qed.

Lemma known_key (m : gmap string Z) d :
  is_Some (m !! d) -> In d (List.map fst (map_to_list m)).
Proof.
  intros [s Hs]. apply in_map_iff. exists (d, s). split; [reflexivity|].
  apply list_elem_of_In. apply elem_of_map_to_list. exact Hs.
Qed.

(** X4: a turn of the polling loop starts at most one worker for a
    handle, however often the listing names it; every handle it starts
    a worker for is in the listing, was unknown or last seen more than
    five seconds before the clock reading of the turn, and is recorded
    as seen at that reading. *)
Theorem poll_starts_each_handle_once (w w' : M10.world) (started : list string)
    (Hrun : M10.poll_once w = (Ok started, w')) :
  NoDup started
  /\ forall d, In d started ->
       (exists out, M10.devices_reply w (M10.polls w) = Ok out
                    /\ In d (M10.attached out))
       /\ M10.device_last_seen w' !! d = Some (M10.time_reply w (M10.reads w))
       /\ match M10.device_last_seen w !! d with
          | Some s => M10.seconds 5 < M10.time_reply w (M10.reads w) - s
          | None => True
          end.
Proof.
  unfold M10.poll_once, bind, M10.time, M10.clean_disconnected, modify, ret
    in Hrun.
  destruct (M10.devices_reply w (M10.polls w)) as [out|e] eqn:E;
    [|discriminate].
  cbn [M10.time_reply M10.reads M10.set_polls] in Hrun.
  destruct (M10.observe_all _ _ _) as [[l|e] w1] eqn:Eo; [|discriminate].
  injection Hrun as <- <-.
  destruct (observe_all_started _ _ _ _ _ Eo) as [Hnd Hall].
  split; [exact Hnd|].
  intros d Hin. destruct (Hall d Hin) as (H1 & H2 & H3).
  split; [exists out; auto|]. split; [|exact H3].
  cbn [M10.device_last_seen M10.set_processed_sessions
       M10.set_device_last_seen].
  rewrite forget_all_lookup; [exact H2|].
  intros Hg. apply filter_In in Hg. destruct Hg as [_ Hno].
  apply negb_true_iff in Hno. apply bool_decide_eq_false in Hno.
  apply Hno. apply list_elem_of_In. exact H1.
Qed.

Lemma poll_starts_each_handle_once_witness :
  let w := m10_world (fun _ => Ok "")
             (fun _ => Ok "List of devices attached
emulator-5554	device
emulator-5554	device
") (fun _ => 0) in
  fst (M10.poll_once w) = Ok ["emulator-5554"] /\ NoDup ["emulator-5554"].
Proof.
  intros w. split; [reflexivity|].
  exact (proj1 (poll_starts_each_handle_once w (snd (M10.poll_once w))
                  ["emulator-5554"] eq_refl)).
Defined.

(** X5: a handle that the loop knows and that a listing no longer names
    is forgotten by that turn of the loop, together with the time of its
    last session; a worker started for it afterwards begins a session at
    once, however short the time since the last one. *)
Theorem detached_handle_is_fresh (w : M10.world) (d out : string) (s : Z)
    (Hseen : M10.device_last_seen w !! d = Some s)
    (Hlist : M10.devices_reply w (M10.polls w) = Ok out)
    (Hgone : ~ In d (M10.attached out)) :
  let w' := snd (M10.poll_once w) in
  M10.device_last_seen w' !! d = None
  /\ M10.processed_sessions w' !! d = None
  /\ fst (M10.enter d w') = Ok (Some (M10.time_reply w' (M10.reads w'))).
Proof.
  cbv zeta.
  unfold M10.poll_once, bind, M10.time, M10.clean_disconnected, modify, ret.
  rewrite Hlist. cbn [M10.time_reply M10.reads M10.set_polls].
  pose proof (observe_all_known (M10.time_reply w (M10.reads w))
                (M10.attached out)
                (M10.set_reads (S (M10.reads w))
                   (M10.set_polls (S (M10.polls w)) w)) d) as Hk.
  destruct (observe_all_keeps (M10.time_reply w (M10.reads w))
              (M10.attached out)
              (M10.set_reads (S (M10.reads w))
                 (M10.set_polls (S (M10.polls w)) w)))
    as (l & w1 & Eo & _).
  rewrite Eo in *. cbn [snd] in *.
  assert (Hin : In d (filter (fun d0 => negb (bool_decide (d0 ∈ M10.attached out)))
                        (List.map fst (map_to_list (M10.device_last_seen w1))))).
  { apply filter_In. split.
    - apply known_key. apply Hk. cbn. rewrite Hseen. eexists. reflexivity.
    - apply negb_true_iff. apply bool_decide_eq_false.
      intros H. apply Hgone. apply list_elem_of_In. exact H. }
  cbn [M10.device_last_seen M10.processed_sessions M10.set_processed_sessions
       M10.set_device_last_seen].
  split; [apply forget_all_gone; exact Hin|].
  split; [apply forget_all_gone; exact Hin|].
  unfold M10.enter, bind, gets, M10.time, modify, ret.
  cbn -[M10.seconds M10.RECHECK_INTERVAL M10.forget_all].
  rewrite (forget_all_gone _ _ _ Hin). reflexivity.
Qed.

Lemma detached_handle_is_fresh_witness :
  let w := M10.set_processed_sessions {[ "emulator-5554" := 0 ]}
             (M10.set_device_last_seen {[ "emulator-5554" := 0 ]}
                (m10_world (fun _ => Ok "")
                   (fun _ => Ok "List of devices attached") (fun _ => 1))) in
  fst (M10.enter "emulator-5554" w) = Ok None
  /\ fst (M10.enter "emulator-5554" (snd (M10.poll_once w))) = Ok (Some 1).
Proof.
  intros w. split; [reflexivity|].
  exact (proj2 (proj2 (detached_handle_is_fresh w "emulator-5554"
                         "List of devices attached" 0
                         eq_refl eq_refl (fun H => H)))).
Defined.

(** ** The keys of a parsed map *)

Lemma prefix_chars a : forall s,
  String.prefix a s = true -> incl (chars a) (chars s).
Proof.
  induction a as [|x a IH]; intros s H; [intros c []|].
  destruct s as [|y s]; [discriminate|]. simpl in H.
  destruct (ascii_dec x y) as [->|Hne]; [|discriminate].
  intros c [<-|Hc]; [left; reflexivity|right; exact (IH s H c Hc)].
Qed.

Lemma contains_chars a s :
  Py.contains a s = true -> incl (chars a) (chars s).
Proof.
  induction s as [|y s IH]; simpl; intros H.
  - rewrite orb_false_r in H. exact (prefix_chars a "" H).
  - apply orb_true_iff in H. destruct H as [H|H].
    + exact (prefix_chars a (String y s) H).
    + intros c Hc. right. exact (IH H c Hc).
Qed.

Lemma dial_key_plain k : dial_key k = true -> plain_key k = true.
Proof.
  unfold dial_key. intros H. apply orb_true_iff in H.
  destruct H as [H|H]; [|apply String.eqb_eq in H; subst k; reflexivity].
  apply andb_true_iff in H. destruct H as [_ H].
  apply contains_chars in H.
  assert (Hc : forall c, In c (chars k) ->
                 Ascii.eqb ":" c = false /\ Ascii.eqb "010" c = false
                 /\ Py.is_space c = false).
  { intros c Hc. apply H in Hc. unfold alphabet in Hc. simpl in Hc.
    repeat (destruct Hc as [<-|Hc]; [repeat split; reflexivity|]).
    contradiction. }
  unfold plain_key.
  rewrite (absent_char ":" k) by (intros x Hx; apply (Hc x Hx)).
  rewrite (absent_char "010" k) by (intros x Hx; apply (Hc x Hx)).
  destruct k as [|c k]; [reflexivity|].
  simpl. destruct (Hc c (or_introl eq_refl)) as (_ & _ & ->). reflexivity.
Qed.

Lemma classify_dial_key text desc resid k :
  Polling.classify text desc resid = Some k -> dial_key k = true.
Proof.
  unfold Polling.classify, dial_key.
  destruct (Py.nonempty text && Py.contains text alphabet) eqn:E.
  - intros [= <-]. rewrite E. reflexivity.
  - destruct (find _ _) as [ch|] eqn:Ef.
    + intros [= <-]. apply find_some in Ef. destruct Ef as [Hin _].
      unfold alphabet in Hin. simpl in Hin.
      repeat (destruct Hin as [<-|Hin]; [reflexivity|]). contradiction.
    + destruct (Py.search_name _) as [name|]; [|discriminate].
      intros H. apply dict_get_In in H. unfold Polling.name_mapping in H.
      simpl in H.
      repeat (destruct H as [H|H]; [injection H as _ <-; reflexivity|]).
      contradiction.
Qed.

Lemma nodup_snoc {A} (l : list A) a :
  NoDup l -> ~ In a l -> NoDup (l ++ [a]).
Proof.
  induction l as [|x l IH]; simpl; intros H Ha.
  - constructor; [intros []|constructor].
  - inversion H as [|? ? Hx Hl]; subst. constructor.
    + intros Hin. apply in_app_or in Hin. destruct Hin as [Hin|[<-|[]]].
      * exact (Hx Hin).
      * apply Ha. left. reflexivity.
    + apply IH; [exact Hl|]. intros Hin. apply Ha. right. exact Hin.
Qed.

Lemma dict_get_key {V} k (d : Dict.t V) :
  In k (Dict.keys d) -> Dict.get k d <> None.
Proof.
  induction d as [|[k0 v0] d IH]; simpl; [tauto|].
  intros [->|H]; [rewrite String.eqb_refl; discriminate|].
  destruct (String.eqb k0 k); [discriminate|auto].
Qed.

Lemma dict_set_wf {V} k (v : V) d : Dict.wf d -> Dict.wf (Dict.set k v d).
Proof.
  unfold Dict.wf. rewrite dict_keys_set. unfold Dict.mem.
  destruct (Dict.get k d) eqn:E; [auto|].
  intros H. apply nodup_snoc; [exact H|].
  intros Hin. exact (dict_get_key k d Hin E).
Qed.

Lemma dict_set_keys_all {V} (P : string -> bool) k (v : V) d :
  P k = true -> forallb P (Dict.keys d) = true ->
  forallb P (Dict.keys (Dict.set k v d)) = true.
Proof.
  intros Hk Hd. rewrite dict_keys_set.
  destruct (Dict.mem k d); [exact Hd|].
  rewrite forallb_app, Hd. simpl. rewrite Hk. reflexivity.
Qed.

Lemma polling_parse_nodes_keys nodes : forall acc m,
  fold_result Polling.parse_node nodes acc = Ok m ->
  Dict.wf acc -> forallb dial_key (Dict.keys acc) = true ->
  Dict.wf m /\ forallb dial_key (Dict.keys m) = true.
Proof.
  induction nodes as [|node nodes IH]; intros acc m; simpl.
  - intros [= <-]. auto.
  - destruct (polling_parse_node_cases acc node)
      as [->|(k & bx & Hk & _ & _ & ->)]; simpl; intros H Hwf Hall.
    + exact (IH _ _ H Hwf Hall).
    + apply (IH _ _ H).
      * apply dict_set_wf, Hwf.
      * apply dict_set_keys_all; [|exact Hall].
        unfold Polling.node_key in Hk. exact (classify_dial_key _ _ _ _ Hk).
Qed.

Lemma parsed_map_keys x m :
  Polling.parse_coords_from_ui x = Ok m ->
  Dict.wf m /\ forallb dial_key (Dict.keys m) = true.
Proof.
  unfold Polling.parse_coords_from_ui.
  destruct (ET.fromstring x) as [tree|e].
  - intros H. apply (polling_parse_nodes_keys _ _ _ H); [constructor|reflexivity].
  - intros [= <-]. split; [constructor|reflexivity].
Qed.

Lemma snapshot_map_keys xml :
  Dict.wf (snapshot_keys xml)
  /\ forallb dial_key (Dict.keys (snapshot_keys xml)) = true.
Proof.
  unfold snapshot_keys.
  destruct xml as [x|]; [|split; [constructor|reflexivity]].
  destruct (ET.truthy x); [|split; [constructor|reflexivity]].
  destruct (Polling.parse_coords_from_ui x) as [c|e] eqn:E;
    [exact (parsed_map_keys x c E)|split; [constructor|reflexivity]].
Qed.

Lemma grid_of_size_keys W H c :
  Polling.grid_of_size W H = Ok c ->
  Dict.keys c = (Polling.grid_keys ++ ["CALL"])%list.
Proof.
  intros Hc.
  destruct (Float.int_mul H Float.c0_45) as [top|e] eqn:Et;
    [|unfold Polling.grid_of_size in Hc; rewrite Et in Hc; discriminate].
  destruct (Float.int_mul H Float.c0_85) as [bottom|e] eqn:Eb;
    [|unfold Polling.grid_of_size in Hc; rewrite Et, Eb in Hc; discriminate].
  destruct (Float.int_mul W Float.c0_12) as [left|e] eqn:El;
    [|unfold Polling.grid_of_size in Hc; rewrite Et, Eb, El in Hc;
      discriminate].
  destruct (Float.int_mul W Float.c0_88) as [right|e] eqn:Er;
    [|unfold Polling.grid_of_size in Hc; rewrite Et, Eb, El, Er in Hc;
      discriminate].
  destruct (Float.int_mul H Float.c0_93) as [cy|e] eqn:Ec.
  - rewrite (grid_of_size_shape W H top bottom left right cy Et Eb El Er Ec)
      in Hc.
    injection Hc as <-. reflexivity.
  - unfold Polling.grid_of_size in Hc. rewrite Et, Eb, El, Er in Hc.
    cbn [rbind] in Hc.
    match type of Hc with
    | rbind ?g _ = _ => destruct g; cbn [rbind] in Hc
    end; [rewrite Ec in Hc|]; discriminate.
Qed.

Lemma grid_keys_fine (c : coords) :
  Dict.keys c = (Polling.grid_keys ++ ["CALL"])%list ->
  Dict.wf c /\ forallb dial_key (Dict.keys c) = true
  /\ Polling.dict_truthy c = true.
Proof.
  intros H. unfold Dict.wf. rewrite H. split; [|split].
  - unfold Polling.grid_keys. simpl.
    repeat (constructor; [simpl; intuition discriminate|]). constructor.
  - reflexivity.
  - destruct c; [discriminate|reflexivity].
Qed.

(** What the resolver returns when no map is cached. *)
Lemma prepare_result device w c w' :
  match global_coords w with Some c => Polling.dict_truthy c | None => false end
  = false ->
  Polling.prepare_coords_for_device device w = (Ok c, w') ->
  (exists w3, w' = published device c w3)
  /\ Dict.wf c /\ forallb dial_key (Dict.keys c) = true
  /\ Polling.dict_truthy c = true.
Proof.
  intros Hfresh.
  destruct (dump_ui_returns device w) as (xml & w1 & Hd).
  rewrite (prepare_after_dump device w w1 xml Hfresh Hd).
  destruct ((Polling.dial_key_count (snapshot_keys xml) <? 10)%nat
            || negb (Dict.mem "CALL" (snapshot_keys xml))) eqn:Ec.
  - unfold bind. rewrite print_run.
    unfold Polling.fallback_grid, bind, lift.
    destruct (adb_call _ _ _ _) as [[size|e] w2]; [|discriminate].
    destruct (Polling.screen_size size) as [[W H]|e]; [|discriminate].
    cbn [fst snd].
    destruct (Polling.grid_of_size W H) as [g|e] eqn:Eg; [|discriminate].
    intros [= <- <-]. split; [eexists; reflexivity|].
    exact (grid_keys_fine g (grid_of_size_keys W H g Eg)).
  - apply orb_false_iff in Ec. destruct Ec as [_ Ecall].
    apply negb_false_iff in Ecall.
    unfold bind, ret. rewrite (second_pass_idle _ _ Ecall).
    intros [= <- <-]. split; [eexists; reflexivity|].
    destruct (snapshot_map_keys xml) as [Hwf Hk].
    split; [exact Hwf|]. split; [exact Hk|].
    unfold Dict.mem in Ecall.
    destruct (snapshot_keys xml); [discriminate|reflexivity].
Qed.

Lemma load_saved (c : coords) (w : world) :
  Dict.wf c -> forallb plain_key (Dict.keys c) = true ->
  cache_file w = Some (Polling.cache_text c) ->
  Polling.load_coords w = (Ok (Some c), w).
Proof.
  intros Hwf Hp Hf.
  destruct (load_lines_cache c [] Hp) as [H1 _].
  assert (Ha : assign_all c [] = c).
  { rewrite assign_all_fresh; [reflexivity|]. exact Hwf. }
  rewrite Ha in H1.
  unfold Polling.load_coords, bind, gets, try_catch, lift, ret.
  rewrite Hf, (readlines_cache_text c Hp), H1. reflexivity.
Qed.

Lemma dial_keys_plain (c : coords) :
  forallb dial_key (Dict.keys c) = true ->
  forallb plain_key (Dict.keys c) = true.
Proof.
  intros H. apply forallb_forall. intros k Hk.
  apply dial_key_plain. rewrite forallb_forall in H. apply H, Hk.
Qed.

Lemma v2_parse_nodes_keys nodes : forall acc m,
  fold_result V2.parse_node nodes acc = Ok m ->
  forallb (fun k => Py.contains k alphabet) (Dict.keys acc) = true ->
  forallb (fun k => Py.contains k alphabet) (Dict.keys m) = true.
Proof.
  induction nodes as [|node nodes IH]; intros acc m; simpl.
  - intros [= <-]. auto.
  - destruct (v2_parse_node_cases acc node)
      as [->|(k & bx & Hk & _ & _ & ->)]; simpl; intros H Hall.
    + exact (IH _ _ H Hall).
    + apply (IH _ _ H).
      apply (dict_set_keys_all (fun k => Py.contains k alphabet));
        [|exact Hall].
      unfold v2_node_key in Hk.
      destruct (ET.get_opt node "text") as [text|]; [|discriminate].
      destruct (Py.nonempty text); [|discriminate].
      destruct (Py.contains (Py.strip text) alphabet) eqn:E; [|discriminate].
      injection Hk as <-. exact E.
Qed.

(** X6: every key of a map the snapshot parser of the polling script
    returns is CALL or a piece of "0123456789*#" that is not empty, so
    that a node labelled "12" is filed under "12"; every key of a map
    the parser of the V2 script returns is a piece of "0123456789*#",
    so that its maps never hold CALL. *)
Theorem parsed_keys_are_dial_keys (x : ET.text) :
  (forall m, Polling.parse_coords_from_ui x = Ok m ->
             forallb dial_key (Dict.keys m) = true)
  /\ (forall m, V2.parse_dialpad_coords x = Ok m ->
                forallb (fun k => Py.contains k alphabet) (Dict.keys m) = true
                /\ Dict.get "CALL" m = None).
Proof.
  split.
  - intros m H. exact (proj2 (parsed_map_keys x m H)).
  - intros m H. unfold V2.parse_dialpad_coords in H.
    destruct (ET.fromstring x) as [tree|e]; [|discriminate].
    cbn [rbind] in H.
    pose proof (v2_parse_nodes_keys _ _ _ H eq_refl) as Hk.
    split; [exact Hk|].
    destruct (Dict.get "CALL" m) as [p|] eqn:E; [|reflexivity].
    apply dict_get_In in E.
    rewrite forallb_forall in Hk.
    assert (Hc : Py.contains "CALL" alphabet = true).
    { apply Hk. unfold Dict.keys. apply in_map_iff.
      exists ("CALL", p). split; [reflexivity|exact E]. }
    discriminate Hc.
Qed.

(** X7: when no map is cached and the resolver returns a map, that map
    is published in the module variable and written to the cache file
    (the write is taken to succeed), and loading the cache file gives
    the same map back: whatever the resolver caches can be read again. *)
Theorem resolved_map_reloads (device : string) (w w' : world) (c : coords)
    (Hfresh : match global_coords w with
              | Some c => Polling.dict_truthy c
              | None => false
              end = false)
    (Hrun : Polling.prepare_coords_for_device device w = (Ok c, w')) :
  global_coords w' = Some c
  /\ cache_file w' = Some (Polling.cache_text c)
  /\ Polling.load_coords w' = (Ok (Some c), w').
Proof.
  destruct (prepare_result device w c w' Hfresh Hrun)
    as ((w3 & ->) & Hwf & Hk & _).
  split; [reflexivity|]. split; [reflexivity|].
  apply load_saved; [exact Hwf|exact (dial_keys_plain c Hk)|reflexivity].
Qed.



Lemma parsed_keys_are_dial_keys_witness :
  Polling.parse_coords_from_ui (ET.Document sample_dump)
  = Ok [("1", (120, 180)); ("2", (360, 180))]
  /\ forallb dial_key ["1"; "2"] = true.
Proof.
  split; [reflexivity|].
  exact (proj1 (parsed_keys_are_dial_keys (ET.Document sample_dump))
           [("1", (120, 180)); ("2", (360, 180))] eq_refl).
Defined.

Lemma resolved_map_reloads_witness :
  let w := world_showing full_pad_dump "Physical size: 720x1612" in
  let w' := snd (Polling.prepare_coords_for_device "emulator-5554" w) in
  fst (Polling.prepare_coords_for_device "emulator-5554" w) = Ok sample_coords
  /\ Polling.load_coords w' = (Ok (Some sample_coords), w').
Proof.
  intros w w'. split; [vm_compute; reflexivity|].
  refine (proj2 (proj2 (resolved_map_reloads "emulator-5554" w w' sample_coords
                          eq_refl _))).
  vm_compute. reflexivity.
Defined.


(** ** Reading a damaged cache file *)

Lemma v2_load_line_raises acc line :
  (exists m, V2.load_line acc line = Ok m)
  \/ V2.load_line acc line = Raise ValueError.
Proof.
  unfold V2.load_line.
  destruct (Py.split_on ":" (Py.strip line)) as [|k [|val [|]]]; auto.
  destruct (Py.split_on "," val) as [|a [|b [|]]]; auto.
  destruct (Py.int a); cbn; auto. destruct (Py.int b); cbn; eauto.
Qed.

Lemma v2_load_lines_raise lines : forall acc,
  (exists m, fold_result V2.load_line lines acc = Ok m)
  \/ fold_result V2.load_line lines acc = Raise ValueError.
Proof.
  induction lines as [|l lines IH]; intros acc; simpl; [eauto|].
  destruct (v2_load_line_raises acc l) as [[m ->]| ->]; simpl; auto.
Qed.

Lemma split_on_colon_free s :
  Py.has_char ":" s = false -> Py.split_on ":" s = [s].
Proof. apply split_on_none. Qed.

Lemma lstrip_by_chars sp s x :
  In x (chars (Py.lstrip_by sp s)) -> In x (chars s).
Proof.
  induction s as [|c s IH]; simpl; [tauto|].
  destruct (sp c); [intros H; right; exact (IH H)|tauto].
Qed.

Lemma rstrip_by_chars sp s x :
  In x (chars (Py.rstrip_by sp s)) -> In x (chars s).
Proof.
  revert x. induction s as [|c s IH]; intros x; simpl; [tauto|].
  destruct (Py.rstrip_by sp s) as [|r rs] eqn:E.
  - destruct (sp c); simpl; [tauto|]. intros [<-|[]]. left. reflexivity.
  - simpl. intros [<-|H]; [left; reflexivity|right; apply IH; exact H].
Qed.

Lemma strip_keeps_absent c s :
  Py.has_char c s = false -> Py.has_char c (Py.strip s) = false.
Proof.
  intros H. apply absent_char. intros x Hx.
  unfold Py.strip, Py.strip_by in Hx.
  apply rstrip_by_chars, lstrip_by_chars in Hx.
  destruct (Ascii.eqb c x) eqn:E; [|reflexivity].
  apply Ascii.eqb_eq in E. subst x.
  assert (Hc : Py.has_char c s = true).
  { clear -Hx. induction s as [|a s IH]; [destruct Hx|].
    rewrite has_char_cons. destruct Hx as [->|Hx].
    - rewrite Ascii.eqb_refl. reflexivity.
    - rewrite (IH Hx). apply orb_true_r. }
  congruence.
Qed.

Lemma v2_load_line_colon_free acc line :
  Py.has_char ":" line = false -> V2.load_line acc line = Raise ValueError.
Proof.
  intros H. unfold V2.load_line.
  rewrite (split_on_none ":" (Py.strip line) (strip_keeps_absent _ _ H)).
  reflexivity.
Qed.

Lemma v2_load_lines_colon_free line lines : forall acc,
  In line lines -> Py.has_char ":" line = false ->
  fold_result V2.load_line lines acc = Raise ValueError.
Proof.
  induction lines as [|l lines IH]; intros acc Hin Hc; [destruct Hin|].
  simpl. destruct (v2_load_line_raises acc l) as [[m Hm]|Hr].
  - rewrite Hm. simpl. destruct Hin as [->|Hin].
    + rewrite (v2_load_line_colon_free acc line Hc) in Hm. discriminate.
    + exact (IH m Hin Hc).
  - rewrite Hr. reflexivity.
Qed.

Lemma polling_load_coords_returns w :
  exists r w', Polling.load_coords w = (Ok r, w').
Proof.
  unfold Polling.load_coords, bind, gets, try_catch, lift, ret.
  destruct (cache_file w) as [content|]; [|eauto].
  destruct (fold_result Polling.load_line (Py.readlines content) []);
    [eauto|]. rewrite print_run. eauto.
Qed.

(** X9: a cache file with a line that holds no colon, such as an empty
    line.  The loader of the V2 script raises ValueError on it, which
    ends the script as the loader runs before the loop; the loader of
    the polling script skips the line, and never raises whatever the
    file holds. *)
Theorem line_without_colon (w : world) (content line : string)
    (Hfile : cache_file w = Some content)
    (Hline : In line (Py.readlines content))
    (Hcolon : Py.has_char ":" line = false) :
  fst (V2.load_coords_cache w) = Raise ValueError
  /\ (forall acc, Polling.load_line acc line = Ok acc)
  /\ exists r w', Polling.load_coords w = (Ok r, w').
Proof.
  split; [|split].
  - unfold V2.load_coords_cache, bind, gets, lift. rewrite Hfile.
    rewrite (v2_load_lines_colon_free line _ [] Hline Hcolon). reflexivity.
  - intros acc. unfold Polling.load_line. rewrite Hcolon. reflexivity.
  - apply polling_load_coords_returns.
Qed.

Lemma line_without_colon_witness :
  let w := set_cache_file (Some "1:120,180

2:360,180
") quiet_world in
  fst (V2.load_coords_cache w) = Raise ValueError
  /\ fst (Polling.load_coords w)
     = Ok (Some [("1", (120, 180)); ("2", (360, 180))]).
Proof.
  intros w. split; [|reflexivity].
  exact (proj1 (line_without_colon w _ (String "010" "") eq_refl
                  (or_intror (or_introl eq_refl)) eq_refl)).
Defined.

(** ** Errors in a session of the dialler scripts *)

Lemma bind_ok {W A B} (c : M W A) (k : A -> M W B) w b w' :
  bind c k w = (Ok b, w') ->
  exists a w1, c w = (Ok a, w1) /\ k a w1 = (Ok b, w').
Proof.
  unfold bind. destruct (c w) as [[a|e] w1]; [eauto|discriminate].
Qed.

(** X10: [process_device] of the polling script never raises, whatever
    the transport, the files and the dump do: it returns after printing
    either that it is done or the error that ended the session. *)
Theorem polling_session_never_raises (code device : string) (w : world) :
  exists w' tr,
    Polling.process_device_with code device w = (Ok tt, w')
    /\ (trace w' = tr ++ [Print (MsgDone device)]
        \/ exists e, trace w' = tr ++ [Print (MsgProcessError device e)]).
Proof.
  unfold Polling.process_device_with, try_catch.
  match goal with
  | |- context [match ?c w with _ => _ end] =>
      destruct (c w) as [[[]|e] w'] eqn:E
  end.
  - repeat (apply bind_ok in E; destruct E as (? & ? & _ & E)).
    rewrite print_run in E. injection E as <-.
    eexists. eexists. split; [reflexivity|]. left. reflexivity.
  - rewrite print_run. eexists. eexists. split; [reflexivity|].
    right. exists e. reflexivity.
Qed.

(** X11: [process_device] of the V2 script has no handler: when the
    transport fails at its first command the error leaves the function,
    after the announcement and that one command, and no key is tapped. *)
Theorem v2_session_raises (device : string) (c : coords) (w : world) (e : exn)
    (Hfail : adb_reply w (clock w) = Raise e) :
  fst (V2.process_device device c w) = Raise e
  /\ trace (snd (V2.process_device device c w))
     = trace w ++ [Print (MsgDetected device);
                   Adb (Some device) PowerDisplay true]
  /\ taps (trace (snd (V2.process_device device c w))) = taps (trace w).
Proof.
  unfold V2.process_device, V2.wake_screen, V2.is_screen_on, bind.
  rewrite print_run. unfold adb_call.
  cbn [adb_reply clock log]. rewrite Hfail.
  cbn [fst snd trace advance log].
  split; [reflexivity|]. rewrite <- app_assoc. split; [reflexivity|].
  unfold taps. rewrite flat_map_app. cbn. rewrite app_nil_r. reflexivity.
Qed.

Lemma v2_session_raises_witness :
  let w := mkWorld (fun _ => Raise TransportError) (fun _ => Raise IOError)
             0 [] None None in
  fst (V2.process_device "emulator-5554" sample_coords w) = Raise TransportError
  /\ fst (Polling.process_device "emulator-5554" w) = Ok tt.
Proof.
  intros w. split; [|reflexivity].
  exact (proj1 (v2_session_raises "emulator-5554" sample_coords w
                  TransportError eq_refl)).
Defined.

(** ** The swipe that unlocks *)









(** ** Opening the keypad *)








(** ** The loop of the polling script *)

Lemma main_loop_turn_seen (seen current : gset string) :
  snd (main_loop_turn seen current) = current.
Proof.
  unfold main_loop_turn. cbn [snd]. apply set_eq. intros x.
  rewrite !elem_of_difference, !elem_of_union, !elem_of_difference.
  destruct (decide (x ∈ current)); destruct (decide (x ∈ seen)); tauto.
Qed.

(** X14: over successive listings of the attached devices, starting
    with nothing seen, a turn of [main_loop] starts a worker exactly for
    the handles of its listing that the listing before did not hold: a
    handle that stays attached is served once, and one that is detached
    and attached again is served again. *)
Theorem workers_start_on_appearance (listings : list (gset string)) :
  main_loop_starts ∅ listings
  = zip_with (fun current before => current ∖ before) listings (∅ :: listings).
Proof.
  generalize (∅ : gset string).
  induction listings as [|current rest IH]; intros seen; [reflexivity|].
  cbn [main_loop_starts zip_with]. rewrite main_loop_turn_seen.
  f_equal. apply IH.
Qed.

(** ** A new run of the polling script *)



(** ** Listing the devices *)

Lemma lstrip_by_head sp s c r :
  Py.lstrip_by sp s = String c r -> sp c = false.
Proof.
  induction s as [|a s IH]; simpl; [discriminate|].
  destruct (sp a) eqn:E; [exact IH|]. intros [= <- _]. exact E.
Qed.

Lemma rstrip_by_head sp c r :
  sp c = false -> exists r', Py.rstrip_by sp (String c r) = String c r'.
Proof.
  intros H. simpl. destruct (Py.rstrip_by sp r); [rewrite H|]; eauto.
Qed.

Lemma strip_head s :
  Py.nonempty (Py.strip s) = true ->
  exists c r, Py.strip s = String c r /\ Py.is_space c = false.
Proof.
  unfold Py.strip, Py.strip_by.
  destruct (Py.lstrip_by Py.is_space s) as [|c r] eqn:E; [discriminate|].
  intros _. pose proof (lstrip_by_head _ _ _ _ E) as Hc.
  destruct (rstrip_by_head Py.is_space c r Hc) as [r' ->]. eauto.
Qed.

Lemma first_word_clean s :
  forallb (fun c => negb (Py.is_space c)) (chars (first_word s)) = true.
Proof.
  induction s as [|c s IH]; [reflexivity|].
  simpl. destruct (Py.is_space c) eqn:E; [reflexivity|].
  simpl. rewrite E, IH. reflexivity.
Qed.

(** X16: every handle [list_devices] returns is a word: it is not
    empty and holds no white space, whatever the transport prints. *)
Theorem listed_handles_are_words (w w' : world) (devices : list string)
    (Hrun : list_devices w = (Ok devices, w')) :
  Forall (fun d => Py.nonempty d = true
                   /\ forallb (fun c => negb (Py.is_space c)) (chars d) = true)
         devices.
Proof.
  unfold list_devices, bind, ret, adb_call in Hrun.
  destruct (adb_reply w (clock w)) as [out|e]; [|discriminate].
  injection Hrun as <- _.
  apply Forall_forall. intros d Hd. apply in_flat_map in Hd.
  destruct Hd as (line & _ & Hd). unfold listed_device in Hd.
  destruct (Py.nonempty (Py.strip line)) eqn:En; [|destruct Hd].
  cbn [negb] in Hd.
  destruct (Py.contains _ _); [|destruct Hd].
  destruct Hd as [<-|[]].
  destruct (strip_head line En) as (c & r & -> & Hc).
  split; [simpl; rewrite Hc; reflexivity|apply first_word_clean].
Qed.

Lemma listed_handles_are_words_witness :
  let w := mkWorld (fun _ => Ok "List of devices attached
emulator-5554	device
0123456789ABCDEF	offline
 R58M	device 
") (fun _ => Raise IOError) 0 [] None None in
  fst (list_devices w) = Ok ["emulator-5554"; "R58M"]
  /\ Forall (fun d => Py.nonempty d = true
                      /\ forallb (fun c => negb (Py.is_space c)) (chars d) = true)
            ["emulator-5554"; "R58M"].
Proof.
  intros w. split; [reflexivity|].
  exact (listed_handles_are_words w (snd (list_devices w))
           ["emulator-5554"; "R58M"] eq_refl).
Defined.

(** ** The call key *)

Lemma prepare_result_call device w c w' :
  match global_coords w with Some c => Polling.dict_truthy c | None => false end
  = false ->
  Polling.prepare_coords_for_device device w = (Ok c, w') ->
  Dict.mem "CALL" c = true.
Proof.
  intros Hfresh.
  destruct (dump_ui_returns device w) as (xml & w1 & Hd).
  rewrite (prepare_after_dump device w w1 xml Hfresh Hd).
  destruct ((Polling.dial_key_count (snapshot_keys xml) <? 10)%nat
            || negb (Dict.mem "CALL" (snapshot_keys xml))) eqn:Ec.
  - unfold bind. rewrite print_run.
    unfold Polling.fallback_grid, bind, lift.
    destruct (adb_call _ _ _ _) as [[size|e] w2]; [|discriminate].
    destruct (Polling.screen_size size) as [[W H]|e]; [|discriminate].
    cbn [fst snd].
    destruct (Polling.grid_of_size W H) as [g|e] eqn:Eg; [|discriminate].
    intros [= <- <-].
    pose proof (grid_of_size_keys W H g Eg) as Hk.
    unfold Dict.mem.
    destruct (Dict.get "CALL" g) eqn:E; [reflexivity|].
    exfalso. apply (dict_get_key "CALL" g); [|exact E].
    rewrite Hk. apply in_or_app. right. left. reflexivity.
  - apply orb_false_iff in Ec. destruct Ec as [_ Ecall].
    apply negb_false_iff in Ecall.
    unfold bind, ret. rewrite (second_pass_idle _ _ Ecall).
    intros [= <- <-]. exact Ecall.
Qed.

(** X17: a map the resolver returns when nothing is cached always holds
    the key CALL, from the dump or from the grid; [press_call] then taps
    that point and does not ask the device for its size, so that its
    bottom-centre fallback is never used on such a map. *)
Theorem resolved_map_has_call (device : string) (w w' : world) (c : coords)
    (Hfresh : match global_coords w with
              | Some c => Polling.dict_truthy c
              | None => false
              end = false)
    (Hrun : Polling.prepare_coords_for_device device w = (Ok c, w')) :
  exists p,
    Dict.get "CALL" c = Some p
    /\ forall device' w2,
         trace (snd (Polling.press_call device' c w2))
         = trace w2 ++ [tap_event device' p].
Proof.
  pose proof (prepare_result_call device w c w' Hfresh Hrun) as Hc.
  unfold Dict.mem in Hc.
  destruct (Dict.get "CALL" c) as [[cx cy]|] eqn:E; [|discriminate].
  exists (cx, cy). split; [reflexivity|].
  intros device' w2. unfold Polling.press_call. rewrite E.
  unfold Polling.tap, bind, ret, adb_call, tap_event.
  destruct (adb_reply w2 (clock w2)); reflexivity.
Qed.

Lemma resolved_map_has_call_witness :
  let w := world_showing full_pad_dump "Physical size: 720x1612" in
  exists p, Dict.get "CALL" sample_coords = Some p.
Proof.
  intros w.
  assert (Hrun : Polling.prepare_coords_for_device "emulator-5554" w
                 = (Ok sample_coords,
                    snd (Polling.prepare_coords_for_device "emulator-5554" w)))
    by (vm_compute; reflexivity).
  destruct (resolved_map_has_call "emulator-5554" w _ sample_coords
              eq_refl Hrun) as (p & Hp & _).
  exists p. exact Hp.
Defined.
